(** * tke-workload-metrics: a shallow embedding of [main.go]

    The program is one sequential batch job: load and validate a
    configuration, parse a time window, list the Deployments of a
    namespace, query the monitoring API once per Deployment, reduce each
    returned metric to a maximum, and write one CSV record per Deployment.

    Go's [float64] is IEEE 754 binary64, which is exactly Rocq's primitive
    [float]; comparisons are the primitive ones.  The map built by
    [getDeploymentMetrics] is a [gmap string float].  Package-level
    variables, the log, the requests sent and the CSV writer are threaded
    through an explicit state; [klog.Fatal] ends the process. *)

From Stdlib Require Import ZArith Ascii String Floats.
From stdpp Require Import base option list strings pretty gmap.

Local Open Scope string_scope.

(** ** Errors *)

(** An [error] value as [main.go] tells them apart: the type assertion to
    a pointer to [errors.TencentCloudSDKError] succeeds on the first kind only.
    The string is what [Error()] renders. *)
Inductive error : Type :=
  | TencentCloudSDKError (msg : string)
  | OtherError (msg : string).

Definition Error (err : error) : string :=
  match err with
  | TencentCloudSDKError msg => msg
  | OtherError msg => msg
  end.

(** ** The monitoring SDK's types *)

Module monitor.

(** Modelled from the spec: the declarations of [Point], [MetricDataPoint],
    [MetricData], [MidQueryCondition] and of the request and response of
    [DescribeStatisticData] live in the SDK, outside this repository.
    Fields are the ones [main.go] reads or writes; a pointer to a string or
    a number that may be [nil] is an [option]; slices are lists whose
    elements are present. *)
Record Point : Type := {
  Timestamp : option Z;
  Value : option float
}.

Record MetricDataPoint : Type := {
  Values : list Point
}.

Record MetricData : Type := {
  MetricName : option string;
  Points : list MetricDataPoint
}.

Record MidQueryCondition : Type := {
  Key : string;
  Operator : string;
  CondValue : list string
}.

Record DescribeStatisticDataRequest : Type := {
  Module_ : string;
  Namespace : string;
  MetricNames : list string;
  Conditions : list MidQueryCondition;
  Period : Z;
  StartTime : string;
  EndTime : string
}.

Record DescribeStatisticDataResponse : Type := {
  Data : list MetricData
}.

End monitor.

(** ** Configuration *)

Record Config : Type := {
  Region : string;
  ClusterID : string;
  Namespace : string;
  SecretID : string;
  SecretKey : string
}.

(** [validate]: the five checks in source order; [None] is Go's [nil]
    error, [Some msg] is [fmt.Errorf(msg)]. *)
Definition validate (config : Config) : option string :=
  if decide (Region config = "") then Some "region is required"
  else if decide (ClusterID config = "") then Some "clusterID is required"
  else if decide (Namespace config = "") then Some "namespace is required"
  else if decide (SecretID config = "") then Some "secretID is required"
  else if decide (SecretKey config = "") then Some "secretKey is required"
  else None.

(** ** Reducing a response (lines 175-199 of [main.go]) *)

Definition cpuMetric : string := "K8sWorkloadRateCpuCoreUsedRequestMax".
Definition memMetric : string := "K8sWorkloadRateMemWorkingSetBytesRequestMax".

(** Go's [a > b] on [float64]. *)
Definition float_gt (a b : float) : bool := PrimFloat.ltb b a.

(** One iteration of the inner loop: a [nil] value is passed over, a value
    strictly above the accumulator replaces it. *)
Definition scanPoint (maxValue : float) (point : monitor.Point) : float :=
  match monitor.Value point with
  | Some v => if float_gt v maxValue then v else maxValue
  | None => maxValue
  end.

(** The inner loop: [maxValue := float64(0)], then every point in order. *)
Definition scanValues (values : list monitor.Point) : float :=
  fold_left scanPoint values 0%float.

(** One iteration of the outer loop.  The three tests of the [continue]
    guard are taken in source order; otherwise the entry's maximum is
    stored under its name, whatever the name is. *)
Definition scanMetric (result : gmap string float) (metric : monitor.MetricData)
    : gmap string float :=
  match monitor.MetricName metric with
  | None => result
  | Some name =>
    match monitor.Points metric with
    | [] => result
    | p0 :: _ =>
      match monitor.Values p0 with
      | [] => result
      | _ :: _ => <[name := scanValues (monitor.Values p0)]> result
      end
    end
  end.

(** The map literal of line 177. *)
Definition initialResult : gmap string float :=
  <[memMetric := 0%float]> (<[cpuMetric := 0%float]> ∅).

(** [result[k]]: a missing key reads as the zero value. *)
Definition index (result : gmap string float) (k : string) : float :=
  default 0%float (result !! k).

Definition scanData (metricRawData : list monitor.MetricData) : gmap string float :=
  fold_left scanMetric metricRawData initialResult.

(** What the function returns once it holds a response. *)
Definition reduceData (metricRawData : list monitor.MetricData) : float * float :=
  let result := scanData metricRawData in
  (index result cpuMetric, index result memMetric).

(** ** The process: package-level variables and effects *)

(** The five flag variables, as [flag.Parse] leaves them. *)
Record Flags : Type := {
  kubeconfig : string;
  configPath : string;
  startTimeStr : string;
  endTimeStr : string;
  debug : bool
}.

Inductive severity : Type := INFO | WARNING | FATAL.

(** The client built at the top of [getDeploymentMetrics]. *)
Record Client : Type := {
  credential : string * string;
  region : string;
  endpoint : string
}.

Module appsv1.
(** Modelled from the spec: the Kubernetes [Deployment] type is declared
    outside this repository; [main.go] reads its name only. *)
Record Deployment : Type := { Name : string }.
End appsv1.

(** [flags] and [config] are the package-level variables.  [log] holds the
    klog lines, [requests] the monitoring queries sent so far, [file] the
    name given to [os.Create], [written] the records handed to the CSV
    writer, and [flushed] tells whether the deferred [writer.Flush] ran. *)
Record State : Type := {
  flags : Flags;
  config : Config;
  log : list (severity * string);
  requests : list (Client * monitor.DescribeStatisticDataRequest);
  file : option string;
  written : list (list string);
  flushed : bool
}.

Definition set_config (c : Config) (s : State) : State :=
  {| flags := flags s; config := c; log := log s; requests := requests s;
     file := file s; written := written s; flushed := flushed s |}.

Definition add_log (e : severity * string) (s : State) : State :=
  {| flags := flags s; config := config s; log := log s ++ [e];
     requests := requests s; file := file s; written := written s;
     flushed := flushed s |}.

Definition add_request (r : Client * monitor.DescribeStatisticDataRequest)
    (s : State) : State :=
  {| flags := flags s; config := config s; log := log s;
     requests := requests s ++ [r]; file := file s; written := written s;
     flushed := flushed s |}.

Definition set_file (name : string) (s : State) : State :=
  {| flags := flags s; config := config s; log := log s; requests := requests s;
     file := Some name; written := written s; flushed := flushed s |}.

Definition add_record (record : list string) (s : State) : State :=
  {| flags := flags s; config := config s; log := log s; requests := requests s;
     file := file s; written := written s ++ [record]; flushed := flushed s |}.

Definition set_flushed (s : State) : State :=
  {| flags := flags s; config := config s; log := log s; requests := requests s;
     file := file s; written := written s; flushed := true |}.

(** The zero value of [Config], and the process state when [main] starts. *)
Definition zeroConfig : Config :=
  {| Region := ""; ClusterID := ""; Namespace := ""; SecretID := ""; SecretKey := "" |}.

Definition initialState (fl : Flags) : State :=
  {| flags := fl; config := zeroConfig; log := []; requests := [];
     file := None; written := []; flushed := false |}.

(** A computation either returns or ends the process with a status. *)
Inductive outcome (A : Type) : Type :=
  | Returns (a : A)
  | Exits (status : Z).
Arguments Returns {A} a.
Arguments Exits {A} status.

Definition M (A : Type) : Type := State -> outcome A * State.

Definition ret {A : Type} (a : A) : M A := fun s => (Returns a, s).

Definition bind {A B : Type} (m : M A) (k : A -> M B) : M B :=
  fun s =>
    match m s with
    | (Returns a, s') => k a s'
    | (Exits status, s') => (Exits status, s')
    end.

Notation "'let*' x ':=' m 'in' k" := (bind m (fun x => k))
  (at level 10, x pattern, m at level 100, k at level 200).

Definition get : M State := fun s => (Returns s, s).
Definition modify (f : State -> State) : M unit := fun s => (Returns tt, f s).

(** klog: a line is appended to the log; [Fatal] then exits with 255. *)
Definition klog_Info (msg : string) : M unit := modify (add_log (INFO, msg)).
Definition klog_Warning (msg : string) : M unit := modify (add_log (WARNING, msg)).
Definition klog_Fatal {A : Type} (msg : string) : M A :=
  fun s => (Exits 255, add_log (FATAL, msg) s).

(** The value-and-error pair a Go call returns. *)
Inductive call (A : Type) : Type :=
  | Ok (a : A)
  | Err (err : error).
Arguments Ok {A} a.
Arguments Err {A} err.

(** The [if err != nil { klog.Fatal... }] idiom. *)
Definition orFatal {A : Type} (r : call A) (msg : error -> string) : M A :=
  match r with
  | Ok a => ret a
  | Err err => klog_Fatal (msg err)
  end.

(** ** The world outside the program *)

(** Modelled from the spec: the file system, the YAML decoder, Go's [time]
    and [fmt] packages, the cluster client and the monitoring client are
    not code of this repository; the program is parametric in what they
    answer.  [DescribeStatisticData] takes the number of queries sent
    before, since the service may answer the same query differently. *)
Record World : Type := {
  Time : Type;
  RestConfig : Type;
  Clientset : Type;
  ReadFile : string -> call string;
  yaml_Unmarshal : string -> Config -> call Config;
  time_Parse : string -> string -> call Time;
  time_Format : Time -> string -> string;
  BuildConfigFromFlags : string -> string -> call RestConfig;
  NewForConfig : RestConfig -> call Clientset;
  List : Clientset -> string -> call (list appsv1.Deployment);
  os_Create : string -> call unit;
  DescribeStatisticData :
    nat -> Client -> monitor.DescribeStatisticDataRequest ->
    call monitor.DescribeStatisticDataResponse;
  ToJsonString : monitor.DescribeStatisticDataResponse -> string;
  Sprintf_f : float -> string
}.

Definition RFC3339 : string := "2006-01-02T15:04:05Z07:00".
Definition compactLayout : string := "20060102T150405".
Definition newline : string := String (Ascii.ascii_of_nat 10) "".

(** ** The program *)

(** Lines 118-126: the credential, the endpoint and the region. *)
Definition newClient (config : Config) : Client :=
  {| credential := (SecretID config, SecretKey config);
     region := Region config;
     endpoint := "monitor.tencentcloudapi.com" |}.

(** Lines 129-159: the query for one Deployment. *)
Definition newRequest (config : Config) (deploymentName startTime endTime : string)
    : monitor.DescribeStatisticDataRequest :=
  {| monitor.Module_ := "monitor";
     monitor.Namespace := "QCE/TKE2";
     monitor.MetricNames :=
       ["K8sWorkloadRateCpuCoreUsedRequestMax";
        "K8sWorkloadRateMemWorkingSetBytesRequestMax"];
     monitor.Conditions :=
       [ {| monitor.Key := "tke_cluster_instance_id"; monitor.Operator := "=";
            monitor.CondValue := [ClusterID config] |};
         {| monitor.Key := "namespace"; monitor.Operator := "=";
            monitor.CondValue := [Namespace config] |};
         {| monitor.Key := "workload_kind"; monitor.Operator := "=";
            monitor.CondValue := ["Deployment"] |};
         {| monitor.Key := "workload_name"; monitor.Operator := "=";
            monitor.CondValue := [deploymentName] |} ];
     monitor.Period := 3600;
     monitor.StartTime := startTime;
     monitor.EndTime := endTime |}.

Section Program.

Context (W : World).

(** [client.DescribeStatisticData(request)]: the query is sent and the
    world answers. *)
Definition client_DescribeStatisticData (client : Client)
    (request : monitor.DescribeStatisticDataRequest)
    : M (call monitor.DescribeStatisticDataResponse) :=
  fun s =>
    (Returns (DescribeStatisticData W (length (requests s)) client request),
     add_request (client, request) s).

Definition getDeploymentMetrics (deploymentName startTime endTime : string)
    : M (float * float) :=
  let* s0 := get in
  let* _ := klog_Info ("start collect " ++ Namespace (config s0) ++ "/"
                       ++ deploymentName ++ " metrics.") in
  let client := newClient (config s0) in
  let request := newRequest (config s0) deploymentName startTime endTime in
  let* answer := client_DescribeStatisticData client request in
  match answer with
  | Err (TencentCloudSDKError _ as err) =>
    let* _ := klog_Warning ("An API error has returned: " ++ Error err) in
    ret (0%float, 0%float)
  | Err err => klog_Fatal (Error err)
  | Ok response =>
    let* _ :=
      if debug (flags s0)
      then klog_Info ("collect " ++ Namespace (config s0) ++ "/" ++ deploymentName
                      ++ " raw metrics " ++ ToJsonString W response ++ ".")
      else ret tt in
    ret (reduceData (monitor.Data response))
  end.

Definition header : list string :=
  ["Namespace"; "Deployment"; "CPU Usage Max (percent)"; "Memory Usage Max (percent)"].

Definition writer_Write (record : list string) : M unit := modify (add_record record).

(** Lines 110-113: the loop over [deployments.Items]. *)
Fixpoint forDeployments (startTime endTime : Time W)
    (items : list appsv1.Deployment) : M unit :=
  match items with
  | [] => ret tt
  | deployment :: rest =>
    let* (cpuPeakUsage, memPeakUsage) :=
      getDeploymentMetrics (appsv1.Name deployment)
        (time_Format W startTime RFC3339) (time_Format W endTime RFC3339) in
    let* s := get in
    let* _ := writer_Write [Namespace (config s); appsv1.Name deployment;
                            Sprintf_f W cpuPeakUsage; Sprintf_f W memPeakUsage] in
    forDeployments startTime endTime rest
  end.

(** Lines 68-75: the two calls to [time.Parse]. *)
Definition parseWindow : M (Time W * Time W) :=
  let* s := get in
  let* startTime :=
    orFatal (time_Parse W RFC3339 (startTimeStr (flags s)))
      (fun err => "Invalid start time: " ++ Error err ++ newline) in
  let* endTime :=
    orFatal (time_Parse W RFC3339 (endTimeStr (flags s)))
      (fun err => "Invalid end time: " ++ Error err ++ newline) in
  ret (startTime, endTime).

(** Line 95. *)
Definition outputName (namespace : string) (startTime endTime : Time W) : string :=
  "deployments_metrics_" ++ namespace ++ "_" ++ time_Format W startTime compactLayout
    ++ "_to_" ++ time_Format W endTime compactLayout ++ ".csv".

(** [main] after [flag.Parse].  A fatal exit skips the deferred calls, so
    [writer.Flush] runs on the normal return only; the deferred
    [file.Close] changes nothing that is observed here. *)
Definition main : M unit :=
  let* s := get in
  let* data :=
    orFatal (ReadFile W (configPath (flags s)))
      (fun err => "Error reading config file: " ++ Error err) in
  let* decoded :=
    orFatal (yaml_Unmarshal W data (config s))
      (fun err => "Error unmarshaling YAML: " ++ Error err) in
  let* _ := modify (set_config decoded) in
  let* _ :=
    match validate decoded with
    | Some msg => klog_Fatal ("Validation error: " ++ msg)
    | None => ret tt
    end in
  let* (startTime, endTime) := parseWindow in
  let* kc := orFatal (BuildConfigFromFlags W "" (kubeconfig (flags s))) Error in
  let* clientset := orFatal (NewForConfig W kc) Error in
  let* deployments := orFatal (List W clientset (Namespace decoded)) Error in
  let filename := outputName (Namespace decoded) startTime endTime in
  let* _ := orFatal (os_Create W filename) Error in
  let* _ := modify (set_file filename) in
  let* _ := writer_Write header in
  let* _ := forDeployments startTime endTime deployments in
  modify set_flushed.

End Program.

(** ** A concrete world, for running the program *)

Module Example.

(** A time is kept as the text it was read from, once its shape
    [dddd-dd-ddTdd:dd:dd+dd:dd] is checked. *)
Definition isDigit (c : ascii) : bool :=
  (48 <=? nat_of_ascii c)%nat && (nat_of_ascii c <=? 57)%nat.

Fixpoint hasShape (shape text : string) : bool :=
  match shape, text with
  | EmptyString, EmptyString => true
  | String p shape', String c text' =>
    (if Ascii.eqb p "d" then isDigit c
     else if Ascii.eqb p "s" then Ascii.eqb c "+" || Ascii.eqb c "-"
     else Ascii.eqb p c)
    && hasShape shape' text'
  | _, _ => false
  end.

Definition parse (layout value : string) : call string :=
  if hasShape "dddd-dd-ddTdd:dd:ddsdd:dd" value then Ok value
  else Err (OtherError ("cannot parse " ++ value ++ " as " ++ layout)).

Definition format (t layout : string) : string :=
  if decide (layout = compactLayout)
  then substring 0 4 t ++ substring 5 2 t ++ substring 8 2 t ++ "T"
       ++ substring 11 2 t ++ substring 14 2 t ++ substring 17 2 t
  else t.

(** [%f]: six decimals, the exact binary value rounded half to even. *)
Definition roundHalfEven (num den : Z) : Z :=
  let q := (num / den)%Z in
  let r := (2 * (num mod den))%Z in
  if (r <? den)%Z then q
  else if (den <? r)%Z then (q + 1)%Z
  else if Z.even q then q else (q + 1)%Z.

Definition pad6 (digits : string) : string :=
  substring 0 (6 - String.length digits) "000000" ++ digits.

Definition sprintf_f (x : float) : string :=
  match Prim2SF x with
  | S754_nan => "NaN"
  | S754_infinity s => if s then "-Inf" else "+Inf"
  | S754_zero s => (if s then "-" else "") ++ "0.000000"
  | S754_finite s m e =>
    let micros :=
      if (0 <=? e)%Z then (Z.pos m * 2 ^ e * 1000000)%Z
      else roundHalfEven (Z.pos m * 1000000) (2 ^ (- e)) in
    (if s then "-" else "") ++ pretty (micros / 1000000)%Z ++ "."
      ++ pad6 (pretty (micros mod 1000000)%Z)
  end.

Definition point (v : float) : monitor.Point :=
  {| monitor.Timestamp := Some 1721232000%Z; monitor.Value := Some v |}.

Definition absent : monitor.Point :=
  {| monitor.Timestamp := Some 1721232000%Z; monitor.Value := None |}.

Definition metric (name : string) (values : list monitor.Point) : monitor.MetricData :=
  {| monitor.MetricName := Some name;
     monitor.Points := [ {| monitor.Values := values |} ] |}.

(** The binary64 values nearest to 0.2, 0.4, 0.5, 0.8 and 0.9. *)
Definition f02 : float := 0x1.999999999999ap-3%float.
Definition f04 : float := 0x1.999999999999ap-2%float.
Definition f05 : float := 0x1p-1%float.
Definition f08 : float := 0x1.999999999999ap-1%float.
Definition f09 : float := 0x1.ccccccccccccdp-1%float.

Definition workloadOf (request : monitor.DescribeStatisticDataRequest) : string :=
  match last (monitor.Conditions request) with
  | Some c => default "" (head (monitor.CondValue c))
  | None => ""
  end.

(** The service knows workload [a]; it has no data for [b], refuses
    [soft] with an API error and cannot be reached for [hard]. *)
Definition describe (n : nat) (client : Client)
    (request : monitor.DescribeStatisticDataRequest)
    : call monitor.DescribeStatisticDataResponse :=
  let w := workloadOf request in
  if decide (w = "a")
  then Ok {| monitor.Data := [ metric memMetric [point f04];
                                metric cpuMetric [point f02; point f09; absent] ] |}
  else if decide (w = "soft") then Err (TencentCloudSDKError "[TencentCloudSDKError] Code=LimitExceeded")
  else if decide (w = "hard") then Err (OtherError "dial tcp: i/o timeout")
  else Ok {| monitor.Data := [] |}.

Definition exampleConfig : Config :=
  {| Region := "ap-guangzhou"; ClusterID := "cls-12345678"; Namespace := "ns";
     SecretID := "id"; SecretKey := "key" |}.

Definition world (items : list string) : World :=
  {| Time := string;
     RestConfig := string;
     Clientset := string;
     ReadFile := fun path =>
       if decide (path = "config.yaml") then Ok "region: ap-guangzhou"
       else Err (OtherError ("open " ++ path ++ ": no such file or directory"));
     yaml_Unmarshal := fun data _ =>
       if decide (data = "region: ap-guangzhou") then Ok exampleConfig
       else Err (OtherError "yaml: unmarshal errors");
     time_Parse := parse;
     time_Format := format;
     BuildConfigFromFlags := fun _ path => Ok path;
     NewForConfig := fun kc => Ok kc;
     List := fun _ _ => Ok (map appsv1.Build_Deployment items);
     os_Create := fun _ => Ok tt;
     DescribeStatisticData := describe;
     ToJsonString := fun _ => "{}";
     Sprintf_f := sprintf_f |}.

Definition exampleFlags (startTime endTime : string) : Flags :=
  {| kubeconfig := "kubeconfig"; configPath := "config.yaml";
     startTimeStr := startTime; endTimeStr := endTime; debug := false |}.

Definition t0 : string := "2024-07-18T00:00:00+08:00".
Definition t13 : string := "2024-07-18T13:00:00+08:00".

End Example.

(** ** Vocabulary of the statements *)

(** The required fields with the names [validate] reports, in the order
    it tests them. *)
Definition requiredFields (c : Config) : list (string * string) :=
  [("region", Region c); ("clusterID", ClusterID c); ("namespace", Namespace c);
   ("secretID", SecretID c); ("secretKey", SecretKey c)].

Fixpoint firstEmpty (fields : list (string * string)) : option string :=
  match fields with
  | [] => None
  | (name, value) :: rest => if decide (value = "") then Some name else firstEmpty rest
  end.

(** The values of a series that are not [nil]. *)
Definition presentValues (values : list monitor.Point) : list float :=
  omap monitor.Value values.

(** The maximum value seen in a series as the specification words it: the
    largest present value, and 0 when none is present. *)
Definition maximumSeen (values : list monitor.Point) : float :=
  match presentValues values with
  | [] => 0%float
  | v :: vs => fold_left (fun m x => if float_gt x m then x else m) vs v
  end.

(** The guard of line 183: the entry has no name, or no series, or a first
    series without values. *)
Definition passedOver (metric : monitor.MetricData) : Prop :=
  monitor.MetricName metric = None \/
  monitor.Points metric = [] \/
  exists p0 ps, monitor.Points metric = p0 :: ps /\ monitor.Values p0 = [].

(** [0 <= x] on [float64]. *)
Definition nonneg (x : float) : Prop := PrimFloat.leb 0%float x = true.

(** The pair a monitoring answer stands for in the report: the reduced
    response, or two zeros after an API error. *)
Definition answerMetrics (answer : call monitor.DescribeStatisticDataResponse)
    : float * float :=
  match answer with
  | Ok response => reduceData (monitor.Data response)
  | Err _ => (0%float, 0%float)
  end.

(** The answer to the query for [deployment] when [n] queries went before. *)
Definition answerFor (W : World) (cfg : Config) (startTime endTime : Time W)
    (n : nat) (deployment : appsv1.Deployment)
    : call monitor.DescribeStatisticDataResponse :=
  DescribeStatisticData W n (newClient cfg)
    (newRequest cfg (appsv1.Name deployment)
       (time_Format W startTime RFC3339) (time_Format W endTime RFC3339)).

Definition rowFor (W : World) (cfg : Config) (startTime endTime : Time W)
    (n : nat) (deployment : appsv1.Deployment) : list string :=
  let (cpu, mem) := answerMetrics (answerFor W cfg startTime endTime n deployment) in
  [Namespace cfg; appsv1.Name deployment; Sprintf_f W cpu; Sprintf_f W mem].

Definition isHardError {A : Type} (answer : call A) : Prop :=
  exists msg, answer = Err (OtherError msg).

(** The state once [getDeploymentMetrics] has logged its first line and
    sent its query. *)
Definition startLine (cfg : Config) (deploymentName : string) : severity * string :=
  (INFO, "start collect " ++ Namespace cfg ++ "/" ++ deploymentName ++ " metrics.").

Definition afterQuery (s : State) (deploymentName startTime endTime : string) : State :=
  add_request (newClient (config s),
               newRequest (config s) deploymentName startTime endTime)
    (add_log (startLine (config s) deploymentName) s).

Definition rawLine (W : World) (cfg : Config) (deploymentName : string)
    (response : monitor.DescribeStatisticDataResponse) : severity * string :=
  (INFO, "collect " ++ Namespace cfg ++ "/" ++ deploymentName ++ " raw metrics "
         ++ ToJsonString W response ++ ".").

Definition condition (key value : string) : monitor.MidQueryCondition :=
  {| monitor.Key := key; monitor.Operator := "="; monitor.CondValue := [value] |}.

(** ** Vocabulary for the run as a whole *)

(** An answer that is an error other than an API error: the only kind that
    stops the loop. *)
Definition isHard {A : Type} (answer : call A) : bool :=
  match answer with
  | Err (OtherError _) => true
  | _ => false
  end.

(** How many Deployments, from the front of the list, are served before a
    query meets a hard error; [n] queries went before the first of them. *)
Fixpoint servedCount (W : World) (cfg : Config) (startTime endTime : Time W)
    (n : nat) (items : list appsv1.Deployment) : nat :=
  match items with
  | [] => 0
  | deployment :: rest =>
    if isHard (answerFor W cfg startTime endTime n deployment) then 0
    else S (servedCount W cfg startTime endTime (S n) rest)
  end.

(** The client and the query that go out for one Deployment. *)
Definition queryFor (W : World) (cfg : Config) (startTime endTime : Time W)
    (deployment : appsv1.Deployment) : Client * monitor.DescribeStatisticDataRequest :=
  (newClient cfg,
   newRequest cfg (appsv1.Name deployment)
     (time_Format W startTime RFC3339) (time_Format W endTime RFC3339)).

(** The same flags with the debug switch set to [b]. *)
Definition withDebug (b : bool) (fl : Flags) : Flags :=
  {| kubeconfig := kubeconfig fl; configPath := configPath fl;
     startTimeStr := startTimeStr fl; endTimeStr := endTimeStr fl; debug := b |}.

(** An entry cut down to its first series. *)
Definition firstSeriesOnly (metric : monitor.MetricData) : monitor.MetricData :=
  {| monitor.MetricName := monitor.MetricName metric;
     monitor.Points := take 1 (monitor.Points metric) |}.

(** The state in which the loop of [main] starts. *)
Definition loopStart (W : World) (fl : Flags) (cfg : Config)
    (startTime endTime : Time W) : State :=
  add_record header
    (set_file (outputName W (Namespace cfg) startTime endTime)
       (set_config cfg (initialState fl))).

(** What [main] makes of the loop's end: the deferred flush runs on a
    normal return only. *)
Definition finish (r : outcome unit * State) : outcome unit * State :=
  match r with
  | (Returns _, s) => (Returns tt, set_flushed s)
  | (Exits status, s) => (Exits status, s)
  end.

(** Every step of [main] before the loop succeeds: the configuration [cfg]
    is read, decoded and valid, the window parses to [startTime] and
    [endTime], the cluster lists [items], and the output file is created. *)
Definition reachesLoop (W : World) (fl : Flags) (cfg : Config)
    (startTime endTime : Time W) (items : list appsv1.Deployment) : Prop :=
  exists data kc clientset,
    ReadFile W (configPath fl) = Ok data
    /\ yaml_Unmarshal W data zeroConfig = Ok cfg
    /\ validate cfg = None
    /\ time_Parse W RFC3339 (startTimeStr fl) = Ok startTime
    /\ time_Parse W RFC3339 (endTimeStr fl) = Ok endTime
    /\ BuildConfigFromFlags W "" (kubeconfig fl) = Ok kc
    /\ NewForConfig W kc = Ok clientset
    /\ List W clientset (Namespace cfg) = Ok items
    /\ os_Create W (outputName W (Namespace cfg) startTime endTime) = Ok tt.

(** A log without a fatal line. *)
Definition noFatal (lines : list (severity * string)) : Prop :=
  Forall (fun line => line.1 <> FATAL) lines.

(** A binary64 value that is the literal 0 or is above 0: it is not
    negative, not the negative zero and not a NaN. *)
Definition zeroOrAbove (x : float) : Prop :=
  x = 0%float \/ float_gt x 0%float = true.

(** A decoded configuration with two fields left out, and a world whose
    decoder yields it. *)
Definition incompleteConfig : Config :=
  {| Region := "ap-guangzhou"; ClusterID := "cls-12345678"; Namespace := "";
     SecretID := ""; SecretKey := "key" |}.

Definition incompleteWorld : World :=
  {| Time := string;
     RestConfig := string;
     Clientset := string;
     ReadFile := fun _ => Ok "namespace:";
     yaml_Unmarshal := fun _ _ => Ok incompleteConfig;
     time_Parse := Example.parse;
     time_Format := Example.format;
     BuildConfigFromFlags := fun _ path => Ok path;
     NewForConfig := fun kc => Ok kc;
     List := fun _ _ => Ok [];
     os_Create := fun _ => Ok tt;
     DescribeStatisticData := Example.describe;
     ToJsonString := fun _ => "{}";
     Sprintf_f := Example.sprintf_f |}.

(** A step of [main] failed: the run is one fatal line. *)
Ltac stop_with c :=
  left; exists c; eexists; intros b;
  unfold main, parseWindow, bind, get, orFatal, ret, modify, writer_Write, klog_Fatal;
  simpl;
  repeat match goal with
  | H : _ = _ |- _ => rewrite H; simpl
  end; reflexivity.

(** ** The command line (lines 44-50 of [main.go]) *)

(** Modelled from the spec: [flag.Parse], [os.Getenv] and [filepath.Join]
    are Go's own and are taken as given.  [flag.Parse] either leaves the
    five variables set and returns, or ends the process itself, with the
    status of the flag package and without a klog line, when it is asked
    for the usage text or cannot read the command line. *)
Inductive parseOutcome : Type :=
  | FlagsSet (fl : Flags)
  | FlagsRefused (status : Z) (fl : Flags).

Record Invocation : Type := {
  Getenv : string -> string;
  filepath_Join : list string -> string;
  flag_Parse : Flags -> parseOutcome
}.

(** The defaults that lines 44-48 register. *)
Definition defaultFlags (inv : Invocation) : Flags :=
  {| kubeconfig := filepath_Join inv [Getenv inv "HOME"; ".kube"; "config"];
     configPath := filepath_Join inv [Getenv inv "HOME"; ".metrics"; "config.yaml"];
     startTimeStr := "2024-07-18T00:00:00+08:00";
     endTimeStr := "2024-07-18T13:00:00+08:00";
     debug := false |}.

(** [main] from its first line: the flags are registered and parsed, and
    the rest runs only when [flag.Parse] returns. *)
Definition run (W : World) (inv : Invocation) : outcome unit * State :=
  match flag_Parse inv (defaultFlags inv) with
  | FlagsSet fl => main W (initialState fl)
  | FlagsRefused status fl => (Exits status, initialState fl)
  end.

(** * Properties *)

(** ** Order facts on binary64 *)

Ltac sf_cases :=
  repeat match goal with
  | x : spec_float |- _ => destruct x as [[]|[]| |[] ? ?]
  end;
  simpl; try (intros; congruence);
  repeat match goal with
  | |- context [Z.compare ?a ?b] => destruct (Z.compare_spec a b)
  | |- context [Pos.compare_cont Eq ?a ?b] =>
      change (Pos.compare_cont Eq a b) with (Pos.compare a b);
      destruct (Pos.compare_spec a b)
  end;
  simpl; intros; try congruence; try lia.

Lemma SFltb_above_blocks (m v v' : spec_float) :
  SFltb m v' = true -> SFltb m v = false -> SFltb v' v = false.
Proof. unfold SFltb, SFcompare. sf_cases. Qed.

Lemma SFleb_ltb_trans (a b c : spec_float) :
  SFleb a b = true -> SFltb b c = true -> SFleb a c = true.
Proof. unfold SFleb, SFltb, SFcompare. sf_cases. Qed.

Lemma SFltb_asym (a b : spec_float) :
  SFltb a b = true -> SFltb b a = false.
Proof. unfold SFltb, SFcompare. sf_cases. Qed.

Lemma float_gt_blocks (m v x : float) :
  float_gt v m = true -> float_gt x m = false -> float_gt x v = false.
Proof. unfold float_gt. rewrite !ltb_spec. apply SFltb_above_blocks. Qed.

Lemma nonneg_float_gt (m v : float) :
  nonneg m -> float_gt v m = true -> nonneg v.
Proof. unfold nonneg, float_gt. rewrite !leb_spec, ltb_spec. apply SFleb_ltb_trans. Qed.

Lemma float_gt_asym (a b : float) :
  float_gt a b = true -> float_gt b a = false.
Proof. unfold float_gt. rewrite !ltb_spec. apply SFltb_asym. Qed.

Lemma float_gt_irrefl (a : float) : float_gt a a = false.
Proof.
  destruct (float_gt a a) eqn:E; [|reflexivity].
  pose proof (float_gt_asym _ _ E). congruence.
Qed.

Lemma nonneg_zero : nonneg 0%float.
Proof. reflexivity. Qed.

(** ** The inner loop *)

Lemma scanValues_snoc (values : list monitor.Point) (point : monitor.Point) :
  scanValues (values ++ [point]) = scanPoint (scanValues values) point.
Proof. unfold scanValues. by rewrite fold_left_app. Qed.

Lemma scanValues_nonneg (values : list monitor.Point) : nonneg (scanValues values).
Proof.
  induction values as [|point values IH] using rev_ind; [apply nonneg_zero|].
  rewrite scanValues_snoc. unfold scanPoint.
  destruct (monitor.Value point) as [v|]; [|done].
  destruct (float_gt v (scanValues values)) eqn:E; [|done].
  by eapply nonneg_float_gt.
Qed.

(** The accumulator is 0 or one of the values scanned. *)
Lemma scanValues_origin (values : list monitor.Point) :
  scanValues values = 0%float \/
  exists point, point ∈ values /\ monitor.Value point = Some (scanValues values).
Proof.
  induction values as [|point values IH] using rev_ind; [by left|].
  rewrite scanValues_snoc. unfold scanPoint.
  destruct (monitor.Value point) as [v|] eqn:Ev.
  - destruct (float_gt v (scanValues values)).
    + right. exists point. split; [|done].
      apply elem_of_app. right. apply list_elem_of_singleton. done.
    + destruct IH as [IH|(q & Hq & Hv)]; [by left|].
      right. exists q. split; [|done]. apply elem_of_app. by left.
  - destruct IH as [IH|(q & Hq & Hv)]; [by left|].
    right. exists q. split; [|done]. apply elem_of_app. by left.
Qed.

(** No value scanned is above the accumulator. *)
Lemma scanValues_upper (values : list monitor.Point) (point : monitor.Point) (v : float) :
  point ∈ values -> monitor.Value point = Some v ->
  float_gt v (scanValues values) = false.
Proof.
  induction values as [|q values IH] using rev_ind.
  { intros Hin. by apply elem_of_nil in Hin. }
  intros Hin Hv. rewrite scanValues_snoc. unfold scanPoint.
  apply elem_of_app in Hin as [Hin|Hin].
  - specialize (IH Hin Hv).
    destruct (monitor.Value q) as [w|]; [|done].
    destruct (float_gt w (scanValues values)) eqn:E; [|done].
    by eapply float_gt_blocks.
  - apply list_elem_of_singleton in Hin as ->. rewrite Hv.
    destruct (float_gt v (scanValues values)) eqn:E; [|done].
    apply float_gt_irrefl.
Qed.

Lemma scanValues_absent (values : list monitor.Point) :
  Forall (fun point => monitor.Value point = None) values ->
  scanValues values = 0%float.
Proof.
  intros Hall. destruct (scanValues_origin values) as [H|(q & Hq & Hv)]; [done|].
  rewrite Forall_forall in Hall. specialize (Hall q Hq). congruence.
Qed.

(** ** The outer loop *)

Lemma scanMetric_stores (result : gmap string float) (metric : monitor.MetricData)
    (name : string) (p0 : monitor.MetricDataPoint) (ps : list monitor.MetricDataPoint) :
  monitor.MetricName metric = Some name ->
  monitor.Points metric = p0 :: ps ->
  monitor.Values p0 <> [] ->
  scanMetric result metric = <[name := scanValues (monitor.Values p0)]> result.
Proof.
  intros Hname Hpoints Hvalues. unfold scanMetric. rewrite Hname, Hpoints.
  by destruct (monitor.Values p0).
Qed.

(** An iteration stores nothing, or one maximum under the entry's name. *)
Lemma scanMetric_cases (result : gmap string float) (metric : monitor.MetricData) :
  scanMetric result metric = result \/
  exists name values,
    monitor.MetricName metric = Some name /\
    scanMetric result metric = <[name := scanValues values]> result.
Proof.
  unfold scanMetric.
  destruct (monitor.MetricName metric) as [name|]; [|by left].
  destruct (monitor.Points metric) as [|p0 ps]; [by left|].
  destruct (monitor.Values p0) as [|point values] eqn:E; [by left|].
  right. by exists name, (point :: values).
Qed.

Lemma scanMetric_other (result : gmap string float) (metric : monitor.MetricData)
    (k : string) :
  monitor.MetricName metric <> Some k ->
  scanMetric result metric !! k = result !! k.
Proof.
  intros Hne. destruct (scanMetric_cases result metric) as [->|(name & values & Hname & ->)].
  - done.
  - apply lookup_insert_ne. congruence.
Qed.

Lemma fold_scanMetric_other (entries : list monitor.MetricData)
    (result : gmap string float) (k : string) :
  Forall (fun metric => monitor.MetricName metric <> Some k) entries ->
  fold_left scanMetric entries result !! k = result !! k.
Proof.
  revert result. induction entries as [|metric entries IH]; intros result Hall; [done|].
  apply Forall_cons in Hall as [Hhead Htail]. simpl.
  rewrite IH by done. by apply scanMetric_other.
Qed.

Lemma scanMetric_comm (result : gmap string float) (a b : monitor.MetricData) :
  (forall name, monitor.MetricName a = Some name -> monitor.MetricName b <> Some name) ->
  scanMetric (scanMetric result a) b = scanMetric (scanMetric result b) a.
Proof.
  intros Hab. unfold scanMetric.
  destruct (monitor.MetricName a) as [na|]; [|done].
  destruct (monitor.MetricName b) as [nb|]; [|done].
  destruct (monitor.Points a) as [|pa ?]; [done|].
  destruct (monitor.Points b) as [|pb ?]; [done|].
  destruct (monitor.Values pa) as [|? ?]; [done|].
  destruct (monitor.Values pb) as [|? ?]; [done|].
  apply insert_insert_ne. intros ->. by eapply Hab.
Qed.

Lemma fold_scanMetric_perm (data data' : list monitor.MetricData)
    (result : gmap string float) :
  NoDup (omap monitor.MetricName data) ->
  data ≡ₚ data' ->
  fold_left scanMetric data result = fold_left scanMetric data' result.
Proof.
  intros Hnodup Hperm. revert result Hnodup.
  induction Hperm as [|x l l' Hperm IH|x y l|l l' l'' H1 IH1 H2 IH2];
    intros result Hnodup; simpl.
  - done.
  - apply IH. simpl in Hnodup.
    destruct (monitor.MetricName x); [by apply NoDup_cons in Hnodup as [_ ?] | done].
  - f_equal. apply scanMetric_comm. intros name Hy Hx.
    simpl in Hnodup. rewrite Hy, Hx in Hnodup. simpl in Hnodup.
    apply NoDup_cons in Hnodup as [Hnotin _]. apply Hnotin. by left.
  - rewrite IH1 by done. apply IH2.
    assert (Hp : omap monitor.MetricName l ≡ₚ omap monitor.MetricName l')
      by (by apply omap_Permutation).
    by rewrite <- Hp.
Qed.

Lemma fold_scanMetric_nonneg (entries : list monitor.MetricData)
    (result : gmap string float) :
  map_Forall (fun _ x => nonneg x) result ->
  map_Forall (fun _ x => nonneg x) (fold_left scanMetric entries result).
Proof.
  revert result. induction entries as [|metric entries IH]; intros result Hall; [done|].
  simpl. apply IH.
  destruct (scanMetric_cases result metric) as [->|(name & values & _ & ->)]; [done|].
  apply map_Forall_insert_2; [apply scanValues_nonneg | done].
Qed.

Lemma initialResult_nonneg : map_Forall (fun _ x => nonneg x) initialResult.
Proof.
  unfold initialResult.
  repeat (apply map_Forall_insert_2; [apply nonneg_zero|]).
  apply map_Forall_empty.
Qed.

Lemma index_nonneg (result : gmap string float) (k : string) :
  map_Forall (fun _ x => nonneg x) result -> nonneg (index result k).
Proof.
  intros Hall. unfold index. destruct (result !! k) as [x|] eqn:E; simpl.
  - by eapply Hall.
  - apply nonneg_zero.
Qed.

Lemma reduceData_nonneg (data : list monitor.MetricData) :
  nonneg (reduceData data).1 /\ nonneg (reduceData data).2.
Proof.
  unfold reduceData, scanData. simpl.
  split; apply index_nonneg, fold_scanMetric_nonneg, initialResult_nonneg.
Qed.

Lemma scanData_split (pre post : list monitor.MetricData) (metric : monitor.MetricData) :
  scanData (pre ++ metric :: post) =
  fold_left scanMetric post (scanMetric (scanData pre) metric).
Proof. unfold scanData. by rewrite fold_left_app. Qed.

Lemma scanMetric_passedOver (result : gmap string float) (metric : monitor.MetricData) :
  passedOver metric -> scanMetric result metric = result.
Proof.
  unfold scanMetric. intros [Hname|[Hpoints|(p0 & ps & Hpoints & Hvalues)]].
  - by rewrite Hname.
  - rewrite Hpoints. by destruct (monitor.MetricName metric).
  - rewrite Hpoints, Hvalues. by destruct (monitor.MetricName metric).
Qed.

Lemma scanMetric_lookup_congr (m1 m2 : gmap string float) (metric : monitor.MetricData)
    (k : string) :
  m1 !! k = m2 !! k -> scanMetric m1 metric !! k = scanMetric m2 metric !! k.
Proof.
  intros Heq. unfold scanMetric.
  destruct (monitor.MetricName metric) as [name|]; [|done].
  destruct (monitor.Points metric) as [|p0 ps]; [done|].
  destruct (monitor.Values p0) as [|point values]; [done|].
  rewrite !lookup_insert. by case_decide.
Qed.

Lemma fold_scanMetric_lookup_congr (entries : list monitor.MetricData)
    (m1 m2 : gmap string float) (k : string) :
  m1 !! k = m2 !! k ->
  fold_left scanMetric entries m1 !! k = fold_left scanMetric entries m2 !! k.
Proof.
  revert m1 m2. induction entries as [|metric entries IH]; intros m1 m2 Heq; [done|].
  simpl. by apply IH, scanMetric_lookup_congr.
Qed.

Lemma fold_scanMetric_passedOver (entries : list monitor.MetricData)
    (result : gmap string float) (k : string) :
  Forall (fun metric => monitor.MetricName metric = Some k -> passedOver metric) entries ->
  fold_left scanMetric entries result !! k = result !! k.
Proof.
  revert result. induction entries as [|metric entries IH]; intros result Hall; [done|].
  apply Forall_cons in Hall as [Hhead Htail]. simpl. rewrite IH by done.
  destruct (decide (monitor.MetricName metric = Some k)) as [Hk|Hk].
  - by rewrite scanMetric_passedOver by auto.
  - by apply scanMetric_other.
Qed.

Lemma index_initialResult (k : string) : index initialResult k = 0%float.
Proof.
  unfold index, initialResult. rewrite !lookup_insert.
  repeat case_decide; by rewrite ?lookup_empty.
Qed.

(** The entry that stores last under a name decides that name. *)
Lemma scanData_last (pre post : list monitor.MetricData) (metric : monitor.MetricData)
    (name : string) (p0 : monitor.MetricDataPoint) (ps : list monitor.MetricDataPoint) :
  monitor.MetricName metric = Some name ->
  monitor.Points metric = p0 :: ps ->
  monitor.Values p0 <> [] ->
  Forall (fun later => monitor.MetricName later <> Some name) post ->
  scanData (pre ++ metric :: post) !! name = Some (scanValues (monitor.Values p0)).
Proof.
  intros Hname Hpoints Hvalues Hpost.
  rewrite scanData_split, fold_scanMetric_other by done.
  erewrite scanMetric_stores by done. apply lookup_insert_eq.
Qed.

(** ** Validation *)

(** C3: [validate] returns an error exactly when one of the five required
    fields is empty; the error names the first empty field in the order
    region, clusterID, namespace, secretID, secretKey; a configuration with
    all five fields non-empty gets the nil error. *)
Theorem validate_reports_first_empty (c : Config) :
  validate c = (fun name => name ++ " is required") <$> firstEmpty (requiredFields c)
  /\ (validate c <> None <-> Exists (fun field => field.2 = "") (requiredFields c))
  /\ (validate c = None <-> Forall (fun field => field.2 <> "") (requiredFields c)).
Proof.
  unfold validate, requiredFields. simpl.
  rewrite !Exists_cons, !Forall_cons, Exists_nil, Forall_nil. simpl.
  repeat case_decide; simpl; intuition congruence.
Qed.

(** ** Reduction of one metric *)

(** C1 (amended): an entry with a name and a first series that has values
    is reduced to the largest of 0 and the non-nil values of that series:
    the stored value is at least 0, is 0 or one of the values, no value of
    the series is above it, and it is 0 when every value is nil; the series
    0.2, 0.8, 0.5, nil gives 0.8. *)
Theorem scanMetric_floor_maximum (result : gmap string float)
    (metric : monitor.MetricData) (name : string)
    (p0 : monitor.MetricDataPoint) (ps : list monitor.MetricDataPoint) :
  monitor.MetricName metric = Some name ->
  monitor.Points metric = p0 :: ps ->
  monitor.Values p0 <> [] ->
  let r := scanValues (monitor.Values p0) in
  scanMetric result metric !! name = Some r
  /\ nonneg r
  /\ (r = 0%float \/ exists point, point ∈ monitor.Values p0 /\ monitor.Value point = Some r)
  /\ (forall point v, point ∈ monitor.Values p0 -> monitor.Value point = Some v ->
        float_gt v r = false)
  /\ (Forall (fun point => monitor.Value point = None) (monitor.Values p0) -> r = 0%float)
  /\ reduceData [Example.metric cpuMetric
                   [Example.point Example.f02; Example.point Example.f08;
                    Example.point Example.f05; Example.absent]]
     = (Example.f08, 0%float).
Proof.
  intros Hname Hpoints Hvalues r. split_and!.
  - erewrite scanMetric_stores by done. apply lookup_insert_eq.
  - apply scanValues_nonneg.
  - apply scanValues_origin.
  - intros point v. apply scanValues_upper.
  - apply scanValues_absent.
  - by vm_compute.
Qed.

Lemma scanMetric_floor_maximum_witness :
  let metric := Example.metric memMetric [Example.point Example.f04; Example.absent] in
  let r := scanValues [Example.point Example.f04; Example.absent] in
  r = Example.f04
  /\ scanMetric initialResult metric !! memMetric = Some r
  /\ nonneg r.
Proof.
  split; [reflexivity|].
  pose proof (scanMetric_floor_maximum initialResult
    (Example.metric memMetric [Example.point Example.f04; Example.absent])
    memMetric {| monitor.Values := [Example.point Example.f04; Example.absent] |} []
    eq_refl eq_refl ltac:(discriminate)) as H.
  split; [exact (proj1 H) | exact (proj1 (proj2 H))].
Defined.

(** C1 as first stated fails on a series of negative values: the largest
    value of the series -1 is -1, and the entry is reduced to 0. *)
Lemma maximum_seen_counterexample :
  let metric := Example.metric cpuMetric [Example.point (-1)%float] in
  monitor.MetricName metric = Some cpuMetric
  /\ monitor.Points metric = [ {| monitor.Values := [Example.point (-1)%float] |} ]
  /\ maximumSeen [Example.point (-1)%float] = (-1)%float
  /\ scanMetric initialResult metric !! cpuMetric = Some 0%float
  /\ scanMetric initialResult metric !! cpuMetric
     <> Some (maximumSeen [Example.point (-1)%float]).
Proof.
  assert (Hrun : scanMetric initialResult
            (Example.metric cpuMetric [Example.point (-1)%float]) !! cpuMetric
          = Some 0%float).
  { erewrite scanMetric_stores by (reflexivity || discriminate).
    by rewrite lookup_insert_eq. }
  split_and!; try reflexivity; try exact Hrun.
  rewrite Hrun. intros H.
  apply (f_equal (fun o => PrimFloat.ltb (default 0%float o) 0%float)) in H.
  vm_compute in H. discriminate.
Qed.

(** C5: an entry without a name or without data points is passed over, so
    the map is left as it was; when every entry of the response that
    carries a requested name is such an entry, that metric is reported as
    0.0, and so is a metric the response does not mention at all. *)
Theorem passedOver_leaves_default :
  (forall result metric, passedOver metric -> scanMetric result metric = result)
  /\ (forall data k,
        Forall (fun metric => monitor.MetricName metric = Some k -> passedOver metric) data ->
        index (scanData data) k = 0%float)
  /\ (forall data,
        Forall (fun metric => monitor.MetricName metric = Some cpuMetric -> passedOver metric) data ->
        (reduceData data).1 = 0%float)
  /\ (forall data,
        Forall (fun metric => monitor.MetricName metric = Some memMetric -> passedOver metric) data ->
        (reduceData data).2 = 0%float).
Proof.
  assert (Hk : forall data k,
    Forall (fun metric => monitor.MetricName metric = Some k -> passedOver metric) data ->
    index (scanData data) k = 0%float).
  { intros data k Hall. unfold index, scanData.
    rewrite fold_scanMetric_passedOver by done. apply index_initialResult. }
  split_and!.
  - apply scanMetric_passedOver.
  - exact Hk.
  - intros data Hall. by apply Hk.
  - intros data Hall. by apply Hk.
Qed.

Lemma passedOver_leaves_default_witness :
  let noSeries := {| monitor.MetricName := Some cpuMetric; monitor.Points := [] |} in
  let noValues := Example.metric cpuMetric [] in
  let data := [noSeries; Example.metric memMetric [Example.point Example.f04]; noValues] in
  passedOver noSeries /\ passedOver noValues
  /\ (reduceData data).1 = 0%float
  /\ (reduceData data).2 = Example.f04.
Proof.
  assert (H1 : passedOver {| monitor.MetricName := Some cpuMetric; monitor.Points := [] |})
    by (right; left; reflexivity).
  assert (H2 : passedOver (Example.metric cpuMetric []))
    by (right; right; eexists _, _; split; reflexivity).
  split_and!; [exact H1 | exact H2 | | reflexivity].
  apply (proj1 (proj2 (proj2 passedOver_leaves_default))).
  repeat apply Forall_cons_2; try (intros; assumption); [discriminate | apply Forall_nil_2].
Defined.

(** C10 (amended): when several entries carry the same name, the last one
    of them that the guard does not pass over decides: its maximum is what
    the map holds under that name in the end, whatever the earlier entries
    stored and whatever passed-over entries of that name come after it;
    0.9 followed by 0.2 under the CPU name reports 0.2. *)
Theorem last_duplicate_overwrites (pre post : list monitor.MetricData)
    (metric : monitor.MetricData) (name : string)
    (p0 : monitor.MetricDataPoint) (ps : list monitor.MetricDataPoint) :
  monitor.MetricName metric = Some name ->
  monitor.Points metric = p0 :: ps ->
  monitor.Values p0 <> [] ->
  Forall (fun later => monitor.MetricName later = Some name -> passedOver later) post ->
  scanData (pre ++ metric :: post) !! name = Some (scanValues (monitor.Values p0))
  /\ index (scanData (pre ++ metric :: post)) name = scanValues (monitor.Values p0)
  /\ reduceData [Example.metric cpuMetric [Example.point Example.f09];
                 Example.metric cpuMetric [Example.point Example.f02]]
     = (Example.f02, 0%float).
Proof.
  intros Hname Hpoints Hvalues Hpost.
  assert (H : scanData (pre ++ metric :: post) !! name
              = Some (scanValues (monitor.Values p0))).
  { rewrite scanData_split, fold_scanMetric_passedOver by done.
    erewrite scanMetric_stores by done. apply lookup_insert_eq. }
  split_and!; [done | by unfold index; rewrite H | by vm_compute].
Qed.

Lemma last_duplicate_overwrites_witness :
  let first := Example.metric memMetric [Example.point Example.f09] in
  let other := Example.metric cpuMetric [Example.point Example.f05] in
  let last := Example.metric memMetric [Example.point Example.f02] in
  let empty := Example.metric memMetric [] in
  index (scanData ([first; other] ++ last :: [other; empty])) memMetric
  = scanValues [Example.point Example.f02]
  /\ scanValues [Example.point Example.f02] = Example.f02
  /\ scanValues [Example.point Example.f09] = Example.f09.
Proof.
  split; [|split; reflexivity].
  refine (proj1 (proj2 (last_duplicate_overwrites
    [Example.metric memMetric [Example.point Example.f09];
     Example.metric cpuMetric [Example.point Example.f05]]
    [Example.metric cpuMetric [Example.point Example.f05];
     Example.metric memMetric []]
    (Example.metric memMetric [Example.point Example.f02])
    memMetric {| monitor.Values := [Example.point Example.f02] |} []
    eq_refl eq_refl _ _))).
  - discriminate.
  - apply Forall_cons_2; [discriminate|].
    apply Forall_cons_2; [|apply Forall_nil_2].
    intros _. right. right. eexists _, _. split; reflexivity.
Defined.

(** C10 as first stated fails when the last entry under a name is one the
    guard passes over: after 0.9 under the CPU name comes a CPU entry whose
    series has no value; that entry stores nothing, and 0.9 is returned,
    not a value of the last entry. *)
Lemma skipped_last_duplicate_counterexample :
  let first := Example.metric cpuMetric [Example.point Example.f09] in
  let last := Example.metric cpuMetric [] in
  monitor.MetricName first = Some cpuMetric
  /\ monitor.MetricName last = Some cpuMetric
  /\ monitor.Points last = [ {| monitor.Values := [] |} ]
  /\ scanValues [] = 0%float
  /\ reduceData [first; last] = (Example.f09, 0%float)
  /\ (reduceData [first; last]).1 <> scanValues [].
Proof.
  split_and!; try reflexivity.
  intros H.
  apply (f_equal (fun x => PrimFloat.ltb 0%float x)) in H.
  vm_compute in H. discriminate.
Qed.

(** C4: the two returned values are found by name.  In a response whose
    named entries have distinct names, the entry that carries a requested
    name decides that value wherever it stands; reordering the entries
    changes nothing; an entry whose name is neither requested name can be
    dropped without changing the result. *)
Theorem values_selected_by_name :
  (forall data data',
      NoDup (omap monitor.MetricName data) -> data ≡ₚ data' ->
      reduceData data = reduceData data')
  /\ (forall data metric p0 ps,
        NoDup (omap monitor.MetricName data) -> metric ∈ data ->
        monitor.Points metric = p0 :: ps -> monitor.Values p0 <> [] ->
        (monitor.MetricName metric = Some cpuMetric ->
           (reduceData data).1 = scanValues (monitor.Values p0))
        /\ (monitor.MetricName metric = Some memMetric ->
           (reduceData data).2 = scanValues (monitor.Values p0)))
  /\ (forall pre post metric,
        monitor.MetricName metric <> Some cpuMetric ->
        monitor.MetricName metric <> Some memMetric ->
        reduceData (pre ++ metric :: post) = reduceData (pre ++ post)).
Proof.
  split_and!.
  - intros data data' Hnodup Hperm. unfold reduceData, scanData.
    by rewrite (fold_scanMetric_perm data data').
  - intros data metric p0 ps Hnodup Hin Hpoints Hvalues.
    apply list_elem_of_split in Hin as (pre & post & ->).
    assert (Hlater : forall name, monitor.MetricName metric = Some name ->
              Forall (fun later => monitor.MetricName later <> Some name) post).
    { intros name Hname. rewrite omap_app in Hnodup. simpl in Hnodup.
      rewrite Hname in Hnodup. apply NoDup_app in Hnodup as (_ & _ & Hnodup).
      apply NoDup_cons in Hnodup as [Hnotin _].
      apply Forall_forall. intros later Hlater Heq. apply Hnotin.
      apply list_elem_of_omap. by exists later. }
    split; intros Hname; unfold reduceData, index; simpl;
      by erewrite scanData_last by eauto.
  - intros pre post metric Hcpu Hmem. unfold reduceData, index.
    rewrite scanData_split. unfold scanData at 3 4. rewrite fold_left_app.
    f_equal; f_equal; apply fold_scanMetric_lookup_congr; by apply scanMetric_other.
Qed.

Lemma values_selected_by_name_witness :
  let cpu := Example.metric cpuMetric [Example.point Example.f09] in
  let mem := Example.metric memMetric [Example.point Example.f04] in
  let other := Example.metric "K8sWorkloadCpuCoreUsed" [Example.point Example.f05] in
  reduceData [cpu; mem] = reduceData [mem; cpu]
  /\ reduceData [mem; cpu] = (Example.f09, Example.f04)
  /\ reduceData ([mem] ++ other :: [cpu]) = reduceData ([mem] ++ [cpu]).
Proof.
  split_and!.
  - apply (proj1 values_selected_by_name).
    + simpl. apply NoDup_cons_2; [|apply NoDup_singleton].
      intros Hin. apply list_elem_of_singleton in Hin. discriminate.
    + apply perm_swap.
  - reflexivity.
  - apply (proj2 (proj2 values_selected_by_name)); discriminate.
Defined.

(** ** The metrics fetcher as a whole *)

(** The three ways a call of [getDeploymentMetrics] can go. *)
Lemma getDeploymentMetrics_run (W : World) (name st et : string) (s : State) :
  getDeploymentMetrics W name st et s =
  match DescribeStatisticData W (length (requests s)) (newClient (config s))
          (newRequest (config s) name st et) with
  | Ok response =>
    (Returns (reduceData (monitor.Data response)),
     if debug (flags s)
     then add_log (rawLine W (config s) name response) (afterQuery s name st et)
     else afterQuery s name st et)
  | Err (TencentCloudSDKError msg) =>
    (Returns (0%float, 0%float),
     add_log (WARNING, "An API error has returned: " ++ msg) (afterQuery s name st et))
  | Err (OtherError msg) =>
    (Exits 255, add_log (FATAL, msg) (afterQuery s name st et))
  end.
Proof.
  unfold getDeploymentMetrics, bind, get, klog_Info, modify,
    client_DescribeStatisticData. simpl.
  destruct (DescribeStatisticData W _ _ _) as [response|[msg|msg]]; simpl; try done.
  by destruct (debug (flags s)).
Qed.

(** C9: both values returned by [getDeploymentMetrics] are at least 0,
    whatever the response holds; the call fails to return only on an error
    that is not an API error.  The accumulator starts at 0, so a series
    whose values are all negative is reduced to 0. *)
Theorem getDeploymentMetrics_nonneg (W : World) (name st et : string) (s : State) :
  match getDeploymentMetrics W name st et s with
  | (Returns (cpu, mem), _) => nonneg cpu /\ nonneg mem
  | (Exits _, _) =>
    isHardError (DescribeStatisticData W (length (requests s)) (newClient (config s))
                   (newRequest (config s) name st et))
  end
  /\ (forall data, nonneg (reduceData data).1 /\ nonneg (reduceData data).2)
  /\ (forall values,
        Forall (fun point => forall v, monitor.Value point = Some v ->
                                       float_gt 0%float v = true) values ->
        scanValues values = 0%float).
Proof.
  split_and!.
  - rewrite getDeploymentMetrics_run.
    destruct (DescribeStatisticData W _ _ _) as [response|[msg|msg]].
    + apply reduceData_nonneg.
    + split; apply nonneg_zero.
    + by exists msg.
  - apply reduceData_nonneg.
  - intros values Hall.
    induction values as [|point values IH] using rev_ind; [done|].
    apply Forall_app in Hall as [Hvalues Hpoint]. rewrite Forall_singleton in Hpoint.
    rewrite scanValues_snoc, IH by done. unfold scanPoint.
    destruct (monitor.Value point) as [v|] eqn:Ev; [|done].
    by rewrite (float_gt_asym _ _ (Hpoint v eq_refl)).
Qed.

Lemma getDeploymentMetrics_nonneg_witness :
  let values := [Example.point (-1)%float; Example.absent; Example.point (-0x1.4p+1)%float] in
  scanValues values = 0%float
  /\ reduceData [Example.metric cpuMetric values] = (0%float, 0%float).
Proof.
  split; [|reflexivity].
  apply (proj2 (proj2 (getDeploymentMetrics_nonneg (Example.world []) "a" "" ""
                         (initialState (Example.exampleFlags Example.t0 Example.t13))))).
  repeat apply Forall_cons_2; try apply Forall_nil_2;
    intros v [= <-]; reflexivity.
Defined.

(** C6: whatever the Deployment and the window, [getDeploymentMetrics]
    sends exactly one query; it carries four conditions, all with the
    operator [=]: the cluster identifier, the namespace, the workload kind
    "Deployment" and the workload name given; it asks for the CPU and the
    memory usage-against-request maxima and for a period of 3600 seconds. *)
Theorem query_has_four_filters (W : World) (name st et : string) (s : State) :
  let request := newRequest (config s) name st et in
  requests (getDeploymentMetrics W name st et s).2
    = (requests s ++ [(newClient (config s), request)])%list
  /\ monitor.Conditions request
     = [condition "tke_cluster_instance_id" (ClusterID (config s));
        condition "namespace" (Namespace (config s));
        condition "workload_kind" "Deployment";
        condition "workload_name" name]
  /\ length (monitor.Conditions request) = 4%nat
  /\ Forall (fun c => monitor.Operator c = "=") (monitor.Conditions request)
  /\ monitor.MetricNames request = [cpuMetric; memMetric]
  /\ monitor.Period request = 3600%Z
  /\ monitor.StartTime request = st
  /\ monitor.EndTime request = et.
Proof.
  intros request. split_and!; try reflexivity.
  - rewrite getDeploymentMetrics_run.
    destruct (DescribeStatisticData W _ _ _) as [response|[msg|msg]]; simpl; try done.
    by destruct (debug (flags s)).
  - simpl. by repeat constructor.
Qed.

(** ** The time window *)

(** C8: the window is accepted as soon as both strings parse under RFC3339,
    with nothing logged and no comparison of the two times; the process
    ends exactly when one of the strings fails to parse, and the fatal line
    names the start when the start fails and the end when only the end
    fails.  A window that ends before it starts, or has no length, passes. *)
Theorem parseWindow_checks_each_string_alone (W : World) (s : State) :
  let startAnswer := time_Parse W RFC3339 (startTimeStr (flags s)) in
  let endAnswer := time_Parse W RFC3339 (endTimeStr (flags s)) in
  parseWindow W s
  = match startAnswer, endAnswer with
    | Err err, _ =>
      (Exits 255, add_log (FATAL, "Invalid start time: " ++ Error err ++ newline) s)
    | Ok _, Err err =>
      (Exits 255, add_log (FATAL, "Invalid end time: " ++ Error err ++ newline) s)
    | Ok startTime, Ok endTime => (Returns (startTime, endTime), s)
    end
  /\ ((exists status s', parseWindow W s = (Exits status, s'))
      <-> (exists err, startAnswer = Err err) \/ (exists err, endAnswer = Err err))
  /\ (let s13 := initialState (Example.exampleFlags Example.t13 Example.t0) in
      parseWindow (Example.world []) s13 = (Returns (Example.t13, Example.t0), s13))
  /\ (let s0 := initialState (Example.exampleFlags Example.t0 Example.t0) in
      parseWindow (Example.world []) s0 = (Returns (Example.t0, Example.t0), s0)).
Proof.
  intros startAnswer endAnswer.
  assert (Hrun : parseWindow W s
    = match startAnswer, endAnswer with
      | Err err, _ =>
        (Exits 255, add_log (FATAL, "Invalid start time: " ++ Error err ++ newline) s)
      | Ok _, Err err =>
        (Exits 255, add_log (FATAL, "Invalid end time: " ++ Error err ++ newline) s)
      | Ok startTime, Ok endTime => (Returns (startTime, endTime), s)
      end).
  { unfold parseWindow, bind, get, orFatal, klog_Fatal, ret. simpl.
    subst startAnswer endAnswer.
    destruct (time_Parse W RFC3339 (startTimeStr (flags s))); [|done].
    by destruct (time_Parse W RFC3339 (endTimeStr (flags s))). }
  split_and!; [exact Hrun | | by vm_compute | by vm_compute].
  rewrite Hrun. destruct startAnswer as [ts|e1], endAnswer as [te|e2]; split.
  - intros (status & s' & H). discriminate.
  - intros [[err H]|[err H]]; discriminate.
  - intros _. right. by exists e2.
  - intros _. by eexists _, _.
  - intros _. left. by exists e1.
  - intros _. by eexists _, _.
  - intros _. left. by exists e1.
  - intros _. by eexists _, _.
Qed.

(** ** The loop over the Deployments *)

Lemma forDeployments_cons (W : World) (startTime endTime : Time W)
    (deployment : appsv1.Deployment) (rest : list appsv1.Deployment) (s : State) :
  forDeployments W startTime endTime (deployment :: rest) s =
  match getDeploymentMetrics W (appsv1.Name deployment)
          (time_Format W startTime RFC3339) (time_Format W endTime RFC3339) s with
  | (Returns (cpu, mem), s') =>
    forDeployments W startTime endTime rest
      (add_record [Namespace (config s'); appsv1.Name deployment;
                   Sprintf_f W cpu; Sprintf_f W mem] s')
  | (Exits status, s') => (Exits status, s')
  end.
Proof.
  simpl. unfold bind at 1.
  destruct (getDeploymentMetrics W _ _ _ s) as [[[cpu mem]|status] s']; done.
Qed.

(** C2: an API error on the query for one Deployment is logged as a
    warning and stands for the pair (0, 0): the record with two zeros is
    written and the loop goes on with the Deployments that follow.  Any
    other error ends the process on the spot with a fatal line: nothing
    more is queried or written. *)
Theorem api_error_soft_other_fatal (W : World) (startTime endTime : Time W)
    (deployment : appsv1.Deployment) (rest : list appsv1.Deployment)
    (s : State) (err : error) :
  answerFor W (config s) startTime endTime (length (requests s)) deployment = Err err ->
  let st := time_Format W startTime RFC3339 in
  let et := time_Format W endTime RFC3339 in
  let sent := afterQuery s (appsv1.Name deployment) st et in
  match err with
  | TencentCloudSDKError msg =>
    let warned := add_log (WARNING, "An API error has returned: " ++ msg) sent in
    getDeploymentMetrics W (appsv1.Name deployment) st et s
      = (Returns (0%float, 0%float), warned)
    /\ forDeployments W startTime endTime (deployment :: rest) s
       = forDeployments W startTime endTime rest
           (add_record [Namespace (config s); appsv1.Name deployment;
                        Sprintf_f W 0%float; Sprintf_f W 0%float] warned)
  | OtherError msg =>
    getDeploymentMetrics W (appsv1.Name deployment) st et s
      = (Exits 255, add_log (FATAL, msg) sent)
    /\ forDeployments W startTime endTime (deployment :: rest) s
       = (Exits 255, add_log (FATAL, msg) sent)
  end.
Proof.
  intros Hanswer st et sent. subst st et sent. unfold answerFor in Hanswer.
  rewrite forDeployments_cons, !getDeploymentMetrics_run, Hanswer.
  by destruct err.
Qed.

Lemma api_error_soft_other_fatal_witness :
  let W := Example.world ["soft"; "a"; "hard"; "b"] in
  let s := set_config Example.exampleConfig
             (initialState (Example.exampleFlags Example.t0 Example.t13)) in
  let run := forDeployments W Example.t0 Example.t13
               (map appsv1.Build_Deployment ["soft"; "a"; "hard"; "b"]) s in
  getDeploymentMetrics W "soft" Example.t0 Example.t13 s
    = (Returns (0%float, 0%float),
       add_log (WARNING, "An API error has returned: [TencentCloudSDKError] Code=LimitExceeded")
         (afterQuery s "soft" Example.t0 Example.t13))
  /\ run.1 = Exits 255
  /\ written run.2 = [["ns"; "soft"; "0.000000"; "0.000000"];
                      ["ns"; "a"; "0.900000"; "0.400000"]]
  /\ length (requests run.2) = 3%nat.
Proof.
  split; [|by vm_compute].
  exact (proj1 (api_error_soft_other_fatal (Example.world ["soft"; "a"; "hard"; "b"])
    Example.t0 Example.t13 (appsv1.Build_Deployment "soft")
    (map appsv1.Build_Deployment ["a"; "hard"; "b"])
    (set_config Example.exampleConfig
       (initialState (Example.exampleFlags Example.t0 Example.t13)))
    (TencentCloudSDKError "[TencentCloudSDKError] Code=LimitExceeded") eq_refl)).
Defined.


(** ** The report *)




(** * Further properties *)

(** ** More order facts on binary64 *)

Lemma SFltb_trans (a b c : spec_float) :
  SFltb a b = true -> SFltb b c = true -> SFltb a c = true.
Proof. unfold SFltb, SFcompare. sf_cases. Qed.

Lemma SFleb_not_ltb_trans (z b a v : spec_float) :
  SFleb z b = true -> SFltb a b = false -> SFltb a v = true -> SFltb b v = true.
Proof. unfold SFleb, SFltb, SFcompare. sf_cases. Qed.

Lemma SFleb_not_above (z m v : spec_float) :
  SFleb z m = true -> SFltb z v = false -> SFltb m v = false.
Proof. unfold SFleb, SFltb, SFcompare. sf_cases. Qed.

Lemma SFleb_not_below (z r : spec_float) :
  SFleb z r = true -> SFltb r z = false.
Proof. unfold SFleb, SFltb, SFcompare. sf_cases. Qed.

Lemma SF_tie_eq (a b : spec_float) :
  SFltb (S754_zero false) a = true -> SFltb (S754_zero false) b = true ->
  SFltb a b = false -> SFltb b a = false -> a = b.
Proof. unfold SFltb, SFcompare. sf_cases. Qed.

Lemma float_gt_trans (a b c : float) :
  float_gt a b = true -> float_gt b c = true -> float_gt a c = true.
Proof. unfold float_gt. rewrite !ltb_spec. intros H1 H2. by eapply SFltb_trans. Qed.

(** Two values above 0 of which neither is above the other are the same
    binary64 value. *)
Lemma float_tie_eq (a b : float) :
  float_gt a 0%float = true -> float_gt b 0%float = true ->
  float_gt a b = false -> float_gt b a = false -> a = b.
Proof.
  unfold float_gt. rewrite !ltb_spec. intros Ha Hb Hab Hba.
  apply Prim2SF_inj. by apply SF_tie_eq.
Qed.

Lemma nonneg_not_below (r : float) : nonneg r -> float_gt 0%float r = false.
Proof. unfold nonneg, float_gt. rewrite leb_spec, ltb_spec. apply SFleb_not_below. Qed.

Lemma nonneg_not_above (m v : float) :
  nonneg m -> float_gt v 0%float = false -> float_gt v m = false.
Proof.
  unfold nonneg, float_gt. rewrite leb_spec, !ltb_spec. apply SFleb_not_above.
Qed.

Lemma float_gt_over (b a v : float) :
  nonneg b -> float_gt b a = false -> float_gt v a = true -> float_gt v b = true.
Proof.
  unfold nonneg, float_gt. rewrite leb_spec, !ltb_spec. apply SFleb_not_ltb_trans.
Qed.

(** ** More on the inner loop *)

(** The accumulator is the literal 0 it starts from, or a value above 0. *)
Lemma scanValues_zero_or_above (values : list monitor.Point) :
  scanValues values = 0%float \/ float_gt (scanValues values) 0%float = true.
Proof.
  induction values as [|point values IH] using rev_ind; [by left|].
  rewrite scanValues_snoc. unfold scanPoint.
  destruct (monitor.Value point) as [v|]; [|done].
  destruct (float_gt v (scanValues values)) eqn:E; [|done].
  right. destruct IH as [IH|IH].
  - by rewrite IH in E.
  - by eapply float_gt_trans.
Qed.

Lemma scanValues_not_above (values values' : list monitor.Point) :
  (forall point, point ∈ values' -> point ∈ values) ->
  float_gt (scanValues values') (scanValues values) = false.
Proof.
  intros Hsub. destruct (scanValues_origin values') as [->|(point & Hin & Hv)].
  - apply nonneg_not_below, scanValues_nonneg.
  - eapply scanValues_upper; [by apply Hsub | done].
Qed.

Lemma scanValues_same_members (values values' : list monitor.Point) :
  (forall point, point ∈ values <-> point ∈ values') ->
  scanValues values = scanValues values'.
Proof.
  intros Hsame.
  assert (H1 : float_gt (scanValues values') (scanValues values) = false)
    by (apply scanValues_not_above; intros; by apply Hsame).
  assert (H2 : float_gt (scanValues values) (scanValues values') = false)
    by (apply scanValues_not_above; intros; by apply Hsame).
  destruct (scanValues_zero_or_above values) as [E|E],
           (scanValues_zero_or_above values') as [E'|E'].
  - congruence.
  - rewrite E in H1. congruence.
  - rewrite E' in H2. congruence.
  - by apply float_tie_eq.
Qed.

(** X1: the reduction of a series does not depend on the order of its
    points, nor on how often a point occurs: two series with the same
    points are reduced to the same binary64 value. *)
Theorem scanValues_order_irrelevant (values values' : list monitor.Point) :
  values ≡ₚ values' \/ (forall point, point ∈ values <-> point ∈ values') ->
  scanValues values = scanValues values'.
Proof.
  intros [Hperm|Hsame]; apply scanValues_same_members; [|done].
  intros point. by rewrite Hperm.
Qed.

Lemma scanValues_order_irrelevant_witness :
  let a := Example.point Example.f02 in
  let b := Example.point Example.f09 in
  scanValues [a; Example.absent; b] = scanValues [b; a; Example.absent]
  /\ scanValues [b; a; Example.absent] = Example.f09.
Proof.
  split; [|reflexivity].
  apply (scanValues_order_irrelevant
           [Example.point Example.f02; Example.absent; Example.point Example.f09]
           [Example.point Example.f09; Example.point Example.f02; Example.absent]).
  left. apply Permutation_cons_app with (l1 := [Example.point Example.f09])
                                        (l2 := [Example.absent]).
  simpl. apply perm_swap.
Defined.

(** X2: scanning a series in two parts and keeping the larger of the two
    results gives what scanning it in one pass gives; in particular points
    added to a series never lower its maximum. *)
Theorem scanValues_app (values values' : list monitor.Point) :
  scanValues (values ++ values')
  = (if float_gt (scanValues values') (scanValues values)
     then scanValues values' else scanValues values)
  /\ float_gt (scanValues values) (scanValues (values ++ values')) = false.
Proof.
  assert (Happ : scanValues (values ++ values')
    = if float_gt (scanValues values') (scanValues values)
      then scanValues values' else scanValues values).
  { induction values' as [|point values' IH] using rev_ind.
    - rewrite app_nil_r. change (scanValues []) with 0%float.
      by rewrite (nonneg_not_below _ (scanValues_nonneg values)).
    - rewrite app_assoc, !scanValues_snoc, IH. unfold scanPoint.
      destruct (monitor.Value point) as [v|]; [|done].
      destruct (float_gt (scanValues values') (scanValues values)) eqn:Hb.
      + destruct (float_gt v (scanValues values')) eqn:Hv; [|by rewrite Hb].
        by rewrite (float_gt_trans _ _ _ Hv Hb).
      + destruct (float_gt v (scanValues values)) eqn:Hv.
        * by rewrite (float_gt_over _ _ _ (scanValues_nonneg values') Hb Hv), Hv.
        * destruct (float_gt v (scanValues values')) eqn:Hv'; by rewrite ?Hv, ?Hb. }
  split; [exact Happ|].
  apply scanValues_not_above. intros point Hin. apply elem_of_app. by left.
Qed.

(** X3: a point whose value is nil, or is not above 0 (a negative value,
    either zero, NaN), can be taken out of a series anywhere without
    changing what the series is reduced to. *)
Theorem scanValues_ignores (values values' : list monitor.Point)
    (point : monitor.Point) :
  (forall v, monitor.Value point = Some v -> float_gt v 0%float = false) ->
  scanValues (values ++ point :: values') = scanValues (values ++ values').
Proof.
  intros Hlow. unfold scanValues. rewrite !fold_left_app. simpl. f_equal.
  fold (scanValues values). unfold scanPoint.
  destruct (monitor.Value point) as [v|]; [|done].
  by rewrite (nonneg_not_above _ _ (scanValues_nonneg values) (Hlow v eq_refl)).
Qed.

Lemma scanValues_ignores_witness :
  scanValues ([Example.point Example.f02] ++ Example.point nan :: [Example.point Example.f05])
  = scanValues ([Example.point Example.f02] ++ [Example.point Example.f05])
  /\ scanValues ([Example.point Example.f02] ++ Example.point (-0)%float :: [])
     = scanValues ([Example.point Example.f02] ++ []).
Proof.
  split.
  - apply (scanValues_ignores [Example.point Example.f02] [Example.point Example.f05]
             (Example.point nan)).
    intros v [= <-]. reflexivity.
  - apply (scanValues_ignores [Example.point Example.f02] []
             (Example.point (-0)%float)).
    intros v [= <-]. reflexivity.
Defined.

(** X4: when some value of the series is above 0, the series is reduced to
    one of its own values, and no value of the series is above that one:
    the reported maximum is then the maximum of the series. *)
Theorem scanValues_attains_positive_maximum (values : list monitor.Point)
    (high : monitor.Point) (w : float) :
  high ∈ values -> monitor.Value high = Some w -> float_gt w 0%float = true ->
  (exists point, point ∈ values /\ monitor.Value point = Some (scanValues values))
  /\ (forall point v, point ∈ values -> monitor.Value point = Some v ->
        float_gt v (scanValues values) = false)
  /\ float_gt (scanValues values) 0%float = true.
Proof.
  intros Hin Hw Hpos.
  assert (Hupper := scanValues_upper values high w Hin Hw).
  split_and!.
  - destruct (scanValues_origin values) as [E|H]; [|done].
    rewrite E in Hupper. congruence.
  - intros point v. apply scanValues_upper.
  - destruct (scanValues_zero_or_above values) as [E|H]; [|done].
    rewrite E in Hupper. congruence.
Qed.

Lemma scanValues_attains_positive_maximum_witness :
  let values := [Example.point (-1)%float; Example.point Example.f05;
                 Example.point Example.f02] in
  (exists point, point ∈ values /\ monitor.Value point = Some (scanValues values))
  /\ scanValues values = Example.f05.
Proof.
  split; [|reflexivity].
  apply (scanValues_attains_positive_maximum
           [Example.point (-1)%float; Example.point Example.f05;
            Example.point Example.f02]
           (Example.point Example.f05) Example.f05).
  - apply list_elem_of_further, list_elem_of_here.
  - reflexivity.
  - reflexivity.
Defined.

(** ** More on the outer loop *)

Lemma scanMetric_firstSeriesOnly (result : gmap string float)
    (metric : monitor.MetricData) :
  scanMetric result (firstSeriesOnly metric) = scanMetric result metric.
Proof.
  unfold scanMetric, firstSeriesOnly. simpl.
  destruct (monitor.MetricName metric); [|done].
  by destruct (monitor.Points metric).
Qed.

(** X5: only the first series of an entry counts: cutting every entry of
    a response down to its first series changes neither returned value. *)
Theorem reduceData_first_series_only (data : list monitor.MetricData) :
  reduceData (map firstSeriesOnly data) = reduceData data.
Proof.
  unfold reduceData, scanData. generalize initialResult.
  induction data as [|metric data IH]; intros result; [done|].
  simpl. rewrite scanMetric_firstSeriesOnly.
  specialize (IH (scanMetric result metric)). simpl in IH. by inversion IH.
Qed.

Lemma SFltb_zero_not_nan (x : spec_float) :
  SFltb (S754_zero false) x = true -> SFeqb x x = true.
Proof. unfold SFltb, SFeqb, SFcompare. sf_cases. Qed.

Lemma zeroOrAbove_not_nan (x : float) : zeroOrAbove x -> PrimFloat.is_nan x = false.
Proof.
  intros [->|Hx]; [reflexivity|].
  unfold PrimFloat.is_nan. unfold float_gt in Hx. rewrite ltb_spec in Hx.
  by rewrite FloatAxioms.eqb_spec, (SFltb_zero_not_nan _ Hx).
Qed.

Lemma fold_scanMetric_zeroOrAbove (entries : list monitor.MetricData)
    (result : gmap string float) :
  map_Forall (fun _ x => zeroOrAbove x) result ->
  map_Forall (fun _ x => zeroOrAbove x) (fold_left scanMetric entries result).
Proof.
  revert result. induction entries as [|metric entries IH]; intros result Hall; [done|].
  simpl. apply IH.
  destruct (scanMetric_cases result metric) as [->|(name & values & _ & ->)]; [done|].
  apply map_Forall_insert_2; [apply scanValues_zero_or_above | done].
Qed.

Lemma reduceData_zeroOrAbove (data : list monitor.MetricData) :
  zeroOrAbove (reduceData data).1 /\ zeroOrAbove (reduceData data).2.
Proof.
  assert (Hall : map_Forall (fun _ x => zeroOrAbove x) (scanData data)).
  { apply fold_scanMetric_zeroOrAbove. unfold initialResult.
    repeat (apply map_Forall_insert_2; [by left|]). apply map_Forall_empty. }
  assert (Hindex : forall k : string, zeroOrAbove (index (scanData data) k)).
  { intros k. unfold index. destruct (scanData data !! k) as [x|] eqn:E; simpl.
    - by eapply Hall.
    - by left. }
  split; apply Hindex.
Qed.

(** X6: each of the two values [getDeploymentMetrics] returns is the
    literal 0 or a value above 0, whatever the response holds: never a
    negative value, never the negative zero, never a NaN. *)
Theorem returned_values_zero_or_above (W : World) (name st et : string) (s : State) :
  match getDeploymentMetrics W name st et s with
  | (Returns (cpu, mem), _) =>
    zeroOrAbove cpu /\ zeroOrAbove mem
    /\ PrimFloat.is_nan cpu = false /\ PrimFloat.is_nan mem = false
  | (Exits _, _) =>
    isHard (DescribeStatisticData W (length (requests s)) (newClient (config s))
              (newRequest (config s) name st et)) = true
  end.
Proof.
  rewrite getDeploymentMetrics_run.
  destruct (DescribeStatisticData W _ _ _) as [response|[msg|msg]]; [| |done].
  - destruct (reduceData_zeroOrAbove (monitor.Data response)) as [H1 H2].
    destruct (reduceData (monitor.Data response)) as [cpu mem]. simpl in *.
    split_and!; try done; by apply zeroOrAbove_not_nan.
  - split_and!; try reflexivity; by left.
Qed.

(** ** The loop, whatever the answers *)

(** One turn of the loop: the query goes out; a hard error ends the
    process there, anything else adds the record and goes on. *)
Lemma forDeployments_step (W : World) (startTime endTime : Time W)
    (deployment : appsv1.Deployment) (rest : list appsv1.Deployment) (s : State) :
  exists s1,
    config s1 = config s /\ flags s1 = flags s /\ file s1 = file s
    /\ flushed s1 = flushed s
    /\ requests s1 = (requests s ++ [queryFor W (config s) startTime endTime deployment])%list
    /\ if isHard (answerFor W (config s) startTime endTime (length (requests s)) deployment)
       then written s1 = written s
            /\ (exists msg, log s1
                  = (log s ++ [startLine (config s) (appsv1.Name deployment);
                               (FATAL, msg)])%list)
            /\ forDeployments W startTime endTime (deployment :: rest) s = (Exits 255, s1)
       else written s1
            = (written s ++ [rowFor W (config s) startTime endTime
                               (length (requests s)) deployment])%list
            /\ (exists lines, log s1 = (log s ++ lines)%list /\ noFatal lines)
            /\ forDeployments W startTime endTime (deployment :: rest) s
               = forDeployments W startTime endTime rest s1.
Proof.
  rewrite forDeployments_cons, getDeploymentMetrics_run.
  unfold rowFor, answerFor, queryFor.
  destruct (DescribeStatisticData W _ _ _) as [response|[msg|msg]]; cbn [isHard answerMetrics].
  - destruct (reduceData (monitor.Data response)) as [cpu mem].
    eexists. split_and!; [..|reflexivity]; try by destruct (debug (flags s)).
    destruct (debug (flags s)); simpl.
    + eexists. rewrite <- app_assoc. split; [reflexivity|].
      by repeat (apply Forall_cons_2; [done|]).
    + eexists. split; [reflexivity|]. by repeat (apply Forall_cons_2; [done|]).
  - eexists. split_and!; [..|reflexivity]; try done.
    simpl. eexists. rewrite <- app_assoc. split; [reflexivity|].
    by repeat (apply Forall_cons_2; [done|]).
  - eexists. split_and!; [..|reflexivity]; try done.
    simpl. exists msg. by rewrite <- app_assoc.
Qed.

(** The loop in closed form. *)
Lemma forDeployments_run (W : World) (startTime endTime : Time W)
    (items : list appsv1.Deployment) (s : State) :
  let cfg := config s in
  let n0 := length (requests s) in
  let k := servedCount W cfg startTime endTime n0 items in
  let result := forDeployments W startTime endTime items s in
  result.1 = (if decide (k = length items) then Returns tt else Exits 255)
  /\ written result.2
     = (written s ++ imap (fun i => rowFor W cfg startTime endTime (n0 + i))
                       (take k items))%list
  /\ requests result.2
     = (requests s ++ map (queryFor W cfg startTime endTime) (take (S k) items))%list
  /\ config result.2 = cfg /\ flags result.2 = flags s
  /\ file result.2 = file s /\ flushed result.2 = flushed s.
Proof.
  revert s. induction items as [|deployment rest IH]; intros s.
  { simpl. rewrite !app_nil_r. done. }
  cbn zeta. cbn [servedCount].
  destruct (forDeployments_step W startTime endTime deployment rest s)
    as (s1 & Hc & Hf & Hfile & Hfl & Hr & Hstep).
  destruct (isHard _).
  - destruct Hstep as (Hw & _ & ->). cbn [fst snd take imap map].
    rewrite app_nil_r, Hw, Hr, Hc, Hf, Hfile, Hfl. by rewrite take_0.
  - destruct Hstep as (Hw & _ & ->).
    specialize (IH s1). cbn zeta in IH.
    assert (Hlen : length (requests s1) = S (length (requests s))).
    { rewrite Hr, length_app. simpl. lia. }
    rewrite Hc, Hlen, Hw, Hr, Hf, Hfile, Hfl in IH.
    destruct IH as (Ho & Hw' & Hr' & Hc' & Hf' & Hfile' & Hfl').
    split_and!; try done.
    + rewrite Ho. simpl. repeat case_decide; (done || lia).
    + rewrite Hw'. cbn [take]. rewrite imap_cons, <- app_assoc. simpl.
      rewrite Nat.add_0_r. do 2 f_equal. apply imap_ext. intros i d _. simpl.
      f_equal. lia.
    + rewrite Hr'. by rewrite <- app_assoc.
Qed.

Lemma servedCount_spec (W : World) (cfg : Config) (startTime endTime : Time W)
    (items : list appsv1.Deployment) (n : nat) :
  let k := servedCount W cfg startTime endTime n items in
  (k <= length items)%nat
  /\ (forall i d, (i < k)%nat -> items !! i = Some d ->
        isHard (answerFor W cfg startTime endTime (n + i) d) = false)
  /\ (forall d, items !! k = Some d ->
        isHard (answerFor W cfg startTime endTime (n + k) d) = true).
Proof.
  revert n. induction items as [|deployment rest IH]; intros n; cbn zeta.
  { simpl. split_and!; [lia | intros; lia | done]. }
  cbn [servedCount].
  destruct (isHard (answerFor W cfg startTime endTime n deployment)) eqn:Hhard.
  - split_and!; [simpl; lia | intros; lia |].
    intros d [= <-]. by rewrite Nat.add_0_r.
  - destruct (IH (S n)) as (Hle & Hbefore & Hat). split_and!.
    + simpl. lia.
    + intros [|i] d Hi Hd.
      * injection Hd as <-. by rewrite Nat.add_0_r.
      * replace (n + S i)%nat with (S n + i)%nat by lia. apply Hbefore; [lia | done].
    + intros d Hd. replace (n + S _)%nat with
        (S n + servedCount W cfg startTime endTime (S n) rest)%nat by lia.
      by apply Hat.
Qed.

(** X7: the loop queries the Deployments in listing order, one query each,
    and stops at the first query that meets a hard error.  With [k] the
    number of Deployments before that one (all of them when there is no
    hard error): the records of the first [k] are written in order, the
    queries of the first [k + 1] are sent in order, and nothing else is;
    the loop returns when [k] is the whole list and exits with 255
    otherwise.  Configuration, flags, file and flush mark are left alone. *)
Theorem forDeployments_serves_until_hard_error (W : World) (startTime endTime : Time W)
    (items : list appsv1.Deployment) (s : State) :
  let answer i d := answerFor W (config s) startTime endTime (length (requests s) + i) d in
  let result := forDeployments W startTime endTime items s in
  exists k,
    (k <= length items)%nat
    /\ (forall i d, (i < k)%nat -> items !! i = Some d -> isHard (answer i d) = false)
    /\ (forall d, items !! k = Some d -> isHard (answer k d) = true)
    /\ (k = length items -> result.1 = Returns tt)
    /\ (k <> length items -> result.1 = Exits 255)
    /\ written result.2
       = (written s ++ imap (fun i => rowFor W (config s) startTime endTime
                                        (length (requests s) + i)) (take k items))%list
    /\ requests result.2
       = (requests s ++ map (queryFor W (config s) startTime endTime)
                          (take (S k) items))%list
    /\ config result.2 = config s /\ flags result.2 = flags s
    /\ file result.2 = file s /\ flushed result.2 = flushed s.
Proof.
  intros answer result.
  destruct (forDeployments_run W startTime endTime items s)
    as (Ho & Hw & Hr & Hc & Hf & Hfile & Hfl).
  destruct (servedCount_spec W (config s) startTime endTime items (length (requests s)))
    as (Hle & Hbefore & Hat).
  exists (servedCount W (config s) startTime endTime (length (requests s)) items).
  split_and!; try done.
  - intros Hk. subst result. rewrite Ho. by rewrite decide_True.
  - intros Hk. subst result. rewrite Ho. by rewrite decide_False.
Qed.

(** ** [main], whatever the world *)

Lemma finish_parts (r : outcome unit * State) :
  (finish r).1 = r.1 /\ written (finish r).2 = written r.2
  /\ requests (finish r).2 = requests r.2 /\ config (finish r).2 = config r.2
  /\ file (finish r).2 = file r.2 /\ flags (finish r).2 = flags r.2
  /\ log (finish r).2 = log r.2
  /\ flushed (finish r).2
     = match r.1 with Returns _ => true | Exits _ => flushed r.2 end.
Proof. by destruct r as [[[]|status] s]. Qed.

(** Once the steps before the loop succeed, [main] is the loop started on
    the header, then the flush. *)
Lemma main_reaches_loop (W : World) (fl : Flags) (cfg : Config)
    (startTime endTime : Time W) (items : list appsv1.Deployment) (b : bool) :
  reachesLoop W fl cfg startTime endTime items ->
  main W (initialState (withDebug b fl))
  = finish (forDeployments W startTime endTime items
              (loopStart W (withDebug b fl) cfg startTime endTime)).
Proof.
  intros (data & kc & clientset & Hread & Hyaml & Hvalid & Hstart & Hend & Hkc
          & Hclientset & Hlist & Hcreate).
  unfold main, parseWindow, bind, get, orFatal, ret, modify, writer_Write. simpl.
  rewrite Hread, Hyaml. simpl. rewrite Hvalid. simpl.
  rewrite Hstart, Hend, Hkc, Hclientset, Hlist, Hcreate. simpl.
  fold (loopStart W (withDebug b fl) cfg startTime endTime).
  by destruct (forDeployments W startTime endTime items _) as [[[]|status] s].
Qed.

(** [main] stops with one fatal line before it creates the file, or it
    reaches the loop. *)
Lemma main_cases (W : World) (fl : Flags) :
  (exists c msg, forall b,
     main W (initialState (withDebug b fl))
     = (Exits 255, add_log (FATAL, msg) (set_config c (initialState (withDebug b fl)))))
  \/ (exists cfg startTime endTime items, reachesLoop W fl cfg startTime endTime items).
Proof.
  destruct (ReadFile W (configPath fl)) as [data|err] eqn:Hread; [|stop_with zeroConfig].
  destruct (yaml_Unmarshal W data zeroConfig) as [cfg|err] eqn:Hyaml; [|stop_with zeroConfig].
  destruct (validate cfg) as [msg|] eqn:Hvalid; [stop_with cfg|].
  destruct (time_Parse W RFC3339 (startTimeStr fl)) as [startTime|err] eqn:Hstart;
    [|stop_with cfg].
  destruct (time_Parse W RFC3339 (endTimeStr fl)) as [endTime|err] eqn:Hend;
    [|stop_with cfg].
  destruct (BuildConfigFromFlags W "" (kubeconfig fl)) as [kc|err] eqn:Hkc; [|stop_with cfg].
  destruct (NewForConfig W kc) as [clientset|err] eqn:Hclientset; [|stop_with cfg].
  destruct (List W clientset (Namespace cfg)) as [items|err] eqn:Hlist; [|stop_with cfg].
  destruct (os_Create W (outputName W (Namespace cfg) startTime endTime)) as [[]|err]
    eqn:Hcreate; [|stop_with cfg].
  right. exists cfg, startTime, endTime, items, data, kc, clientset. done.
Qed.

Lemma main_withDebug (W : World) (fl : Flags) :
  main W (initialState fl) = main W (initialState (withDebug (debug fl) fl)).
Proof. by destruct fl. Qed.

(** [main] in closed form once the loop is reached. *)
Lemma main_run (W : World) (fl : Flags) (cfg : Config)
    (startTime endTime : Time W) (items : list appsv1.Deployment) (b : bool) :
  reachesLoop W fl cfg startTime endTime items ->
  let k := servedCount W cfg startTime endTime 0 items in
  let r := main W (initialState (withDebug b fl)) in
  r.1 = (if decide (k = length items) then Returns tt else Exits 255)
  /\ written r.2 = header :: imap (rowFor W cfg startTime endTime) (take k items)
  /\ requests r.2 = map (queryFor W cfg startTime endTime) (take (S k) items)
  /\ config r.2 = cfg
  /\ file r.2 = Some (outputName W (Namespace cfg) startTime endTime)
  /\ flushed r.2 = bool_decide (k = length items).
Proof.
  intros Hreach k r. subst r. rewrite (main_reaches_loop W fl cfg startTime endTime items b Hreach).
  destruct (finish_parts (forDeployments W startTime endTime items
              (loopStart W (withDebug b fl) cfg startTime endTime)))
    as (F1 & F2 & F3 & F4 & F5 & _ & _ & F8).
  destruct (forDeployments_run W startTime endTime items
              (loopStart W (withDebug b fl) cfg startTime endTime))
    as (Ho & Hw & Hr & Hc & _ & Hfile & Hfl).
  rewrite F1, F2, F3, F4, F5, F8, Ho, Hw, Hr, Hc, Hfile, Hfl.
  change (servedCount W (config (loopStart W (withDebug b fl) cfg startTime endTime))
            startTime endTime
            (length (requests (loopStart W (withDebug b fl) cfg startTime endTime))) items)
    with k.
  clear F1 F2 F3 F4 F5 F8 Ho Hw Hr Hc Hfile Hfl.
  destruct (decide (k = length items)) as [Hk|Hk]; simpl.
  - rewrite (bool_decide_eq_true_2 _ Hk). by split_and!.
  - rewrite (bool_decide_eq_false_2 _ Hk). by split_and!.
Qed.

(** X8: once the loop is reached, [main] reports the Deployments up to the
    first hard error.  With [k] the number of Deployments served before
    it: the file is created under the output name, the records are the
    header and those of the first [k] Deployments in order, the queries are
    those of the first [k + 1]; [main] returns with the writer flushed when
    every Deployment was served, and exits with 255 with the writer not
    flushed otherwise. *)
Theorem main_reports_until_hard_error (W : World) (fl : Flags) (cfg : Config)
    (startTime endTime : Time W) (items : list appsv1.Deployment) :
  reachesLoop W fl cfg startTime endTime items ->
  let r := main W (initialState fl) in
  exists k,
    (k <= length items)%nat
    /\ (forall i d, (i < k)%nat -> items !! i = Some d ->
          isHard (answerFor W cfg startTime endTime i d) = false)
    /\ (forall d, items !! k = Some d ->
          isHard (answerFor W cfg startTime endTime k d) = true)
    /\ r.1 = (if decide (k = length items) then Returns tt else Exits 255)
    /\ file r.2 = Some (outputName W (Namespace cfg) startTime endTime)
    /\ written r.2 = header :: imap (rowFor W cfg startTime endTime) (take k items)
    /\ requests r.2 = map (queryFor W cfg startTime endTime) (take (S k) items)
    /\ flushed r.2 = bool_decide (k = length items).
Proof.
  intros Hreach r. subst r. rewrite (main_withDebug W fl).
  destruct (main_run W fl cfg startTime endTime items (debug fl) Hreach)
    as (Ho & Hw & Hr & _ & Hfile & Hfl).
  destruct (servedCount_spec W cfg startTime endTime items 0) as (Hle & Hbefore & Hat).
  exists (servedCount W cfg startTime endTime 0 items). by split_and!.
Qed.

Lemma main_reports_until_hard_error_witness :
  let W := Example.world ["a"; "hard"; "b"] in
  let r := main W (initialState (Example.exampleFlags Example.t0 Example.t13)) in
  (exists k,
     r.1 = (if decide (k = 3%nat) then Returns tt else Exits 255)
     /\ written r.2
        = header :: imap (rowFor W Example.exampleConfig Example.t0 Example.t13)
                      (take k (map appsv1.Build_Deployment ["a"; "hard"; "b"]))
     /\ flushed r.2 = bool_decide (k = 3%nat))
  /\ r.1 = Exits 255
  /\ written r.2 = [header; ["ns"; "a"; "0.900000"; "0.400000"]]
  /\ length (requests r.2) = 2%nat
  /\ flushed r.2 = false.
Proof.
  split; [|by vm_compute].
  destruct (main_reports_until_hard_error (Example.world ["a"; "hard"; "b"])
              (Example.exampleFlags Example.t0 Example.t13)
              Example.exampleConfig Example.t0 Example.t13
              (map appsv1.Build_Deployment ["a"; "hard"; "b"]))
    as (k & _ & _ & _ & Ho & _ & Hw & _ & Hfl).
  - exists "region: ap-guangzhou", "kubeconfig", "kubeconfig".
    repeat split; reflexivity.
  - exists k. split_and!; [exact Ho | exact Hw | exact Hfl].
Defined.

(** After [flag.Parse]: [main] either stops before it creates the file,
    and then it has logged one fatal line and done nothing else, or it has
    created the file and the first record written is the header. *)
Lemma main_stops_early_or_writes_header (W : World) (fl : Flags) :
  let r := main W (initialState fl) in
  (r.1 = Exits 255 /\ file r.2 = None /\ written r.2 = [] /\ requests r.2 = []
   /\ flushed r.2 = false /\ exists msg, log r.2 = [(FATAL, msg)])
  \/ (exists cfg startTime endTime items,
        reachesLoop W fl cfg startTime endTime items
        /\ file r.2 = Some (outputName W (Namespace cfg) startTime endTime)
        /\ head (written r.2) = Some header).
Proof.
  intros r. subst r. rewrite (main_withDebug W fl).
  destruct (main_cases W fl) as [(c & msg & Hstop)|(cfg & startTime & endTime & items & Hreach)].
  - left. rewrite (Hstop (debug fl)). simpl. split_and!; try done. by exists msg.
  - right. exists cfg, startTime, endTime, items.
    destruct (main_run W fl cfg startTime endTime items (debug fl) Hreach)
      as (_ & Hw & _ & _ & Hfile & _).
    split_and!; [done | done | by rewrite Hw].
Qed.

(** After [flag.Parse]: [main] returns flushed, or exits with 255 not
    flushed; the counts of records and queries in either case. *)
Lemma main_flushes_iff_returns (W : World) (fl : Flags) :
  let r := main W (initialState fl) in
  (r.1 = Returns tt /\ flushed r.2 = true
   /\ length (written r.2) = S (length (requests r.2)))
  \/ (r.1 = Exits 255 /\ flushed r.2 = false
      /\ (file r.2 = None \/ length (written r.2) = length (requests r.2))).
Proof.
  intros r. subst r. rewrite (main_withDebug W fl).
  destruct (main_cases W fl) as [(c & msg & Hstop)|(cfg & startTime & endTime & items & Hreach)].
  - right. rewrite (Hstop (debug fl)). simpl. split_and!; try done. by left.
  - destruct (main_run W fl cfg startTime endTime items (debug fl) Hreach)
      as (Ho & Hw & Hr & _ & _ & Hfl).
    destruct (servedCount_spec W cfg startTime endTime items 0) as (Hle & _ & _).
    rewrite Ho, Hw, Hr, Hfl. simpl. rewrite length_imap, length_map, !length_take.
    case_decide as Hk.
    + left. rewrite bool_decide_eq_true_2 by done. split_and!; try done. lia.
    + right. rewrite bool_decide_eq_false_2 by done. split_and!; try done.
      right. simpl in Hle. lia.
Qed.

Lemma validate_accepts_nonempty (c : Config) :
  validate c = None ->
  Region c <> "" /\ ClusterID c <> "" /\ Namespace c <> ""
  /\ SecretID c <> "" /\ SecretKey c <> "".
Proof. unfold validate. repeat case_decide; intros; (done || discriminate). Qed.

(** X11: every query that a run of [main] sends comes from one validated
    configuration and one window: all queries share the client and the two
    time strings and differ in the workload name only, and none goes out
    with an empty secret id, secret key, region, cluster id or namespace. *)
Theorem queries_carry_validated_config (W : World) (fl : Flags) :
  let r := main W (initialState fl) in
  exists cfg st et,
    Forall (fun q => exists name, q = (newClient cfg, newRequest cfg name st et))
      (requests r.2)
    /\ (requests r.2 <> [] ->
        validate cfg = None
        /\ SecretID cfg <> "" /\ SecretKey cfg <> "" /\ Region cfg <> ""
        /\ ClusterID cfg <> "" /\ Namespace cfg <> "").
Proof.
  intros r. subst r. rewrite (main_withDebug W fl).
  destruct (main_cases W fl) as [(c & msg & Hstop)|(cfg & startTime & endTime & items & Hreach)].
  - exists zeroConfig, "", "". rewrite (Hstop (debug fl)). simpl. split; [by apply Forall_nil|done].
  - destruct (main_run W fl cfg startTime endTime items (debug fl) Hreach)
      as (_ & _ & Hr & _ & _ & _).
    exists cfg, (time_Format W startTime RFC3339), (time_Format W endTime RFC3339).
    rewrite Hr. split.
    + apply Forall_forall. intros q Hq.
      apply list_elem_of_fmap in Hq as (d & -> & _). by exists (appsv1.Name d).
    + intros _. destruct Hreach as (data & kc & clientset & _ & _ & Hvalid & _).
      destruct (validate_accepts_nonempty cfg Hvalid) as (? & ? & ? & ? & ?).
      by split_and!.
Qed.

(** X12: the debug flag changes nothing but the log: with the flag on and
    with it off, [main] ends the same way, with the same file, the same
    records, the same queries, the same configuration and the same flush
    mark. *)
Theorem debug_changes_only_the_log (W : World) (fl : Flags) :
  let on := main W (initialState (withDebug true fl)) in
  let off := main W (initialState (withDebug false fl)) in
  on.1 = off.1 /\ file on.2 = file off.2 /\ written on.2 = written off.2
  /\ requests on.2 = requests off.2 /\ config on.2 = config off.2
  /\ flushed on.2 = flushed off.2.
Proof.
  intros on off. subst on off.
  destruct (main_cases W fl) as [(c & msg & Hstop)|(cfg & startTime & endTime & items & Hreach)].
  - by rewrite !Hstop.
  - destruct (main_run W fl cfg startTime endTime items true Hreach)
      as (Ho & Hw & Hr & Hc & Hfile & Hfl).
    destruct (main_run W fl cfg startTime endTime items false Hreach)
      as (Ho' & Hw' & Hr' & Hc' & Hfile' & Hfl').
    by rewrite Ho, Ho', Hw, Hw', Hr, Hr', Hc, Hc', Hfile, Hfile', Hfl, Hfl'.
Qed.

Lemma noFatal_app (l1 l2 : list (severity * string)) :
  noFatal l1 -> noFatal l2 -> noFatal (l1 ++ l2).
Proof. unfold noFatal. intros. by apply Forall_app. Qed.

Lemma forDeployments_log (W : World) (startTime endTime : Time W)
    (items : list appsv1.Deployment) (s : State) :
  let r := forDeployments W startTime endTime items s in
  exists lines,
    log r.2 = (log s ++ lines)%list
    /\ match r.1 with
       | Returns _ => noFatal lines
       | Exits _ => exists l msg, lines = (l ++ [(FATAL, msg)])%list /\ noFatal l
       end.
Proof.
  revert s. induction items as [|deployment rest IH]; intros s; cbn zeta.
  { exists []. simpl. rewrite app_nil_r. split; [done | apply Forall_nil_2]. }
  destruct (forDeployments_step W startTime endTime deployment rest s)
    as (s1 & _ & _ & _ & _ & _ & Hstep).
  destruct (isHard _).
  - destruct Hstep as (_ & (msg & Hlog) & ->). simpl.
    eexists. split; [exact Hlog|].
    exists [startLine (config s) (appsv1.Name deployment)], msg.
    split; [done|]. by apply Forall_singleton.
  - destruct Hstep as (_ & (lines & Hlog & Hlines) & ->).
    destruct (IH s1) as (lines' & Hlog' & Hend). cbn zeta in Hend.
    exists (lines ++ lines')%list. rewrite Hlog', Hlog, <- app_assoc. split; [done|].
    destruct (forDeployments W startTime endTime rest s1).1.
    + by apply noFatal_app.
    + destruct Hend as (l & msg & -> & Hl).
      exists (lines ++ l)%list, msg. rewrite app_assoc. split; [done|].
      by apply noFatal_app.
Qed.

(** After [flag.Parse]: a fatal line is logged exactly when [main]
    exits, and it is the last line. *)
Lemma fatal_line_iff_exit (W : World) (fl : Flags) :
  let r := main W (initialState fl) in
  match r.1 with
  | Returns _ => noFatal (log r.2)
  | Exits _ => exists l msg, log r.2 = (l ++ [(FATAL, msg)])%list /\ noFatal l
  end.
Proof.
  intros r. subst r. rewrite (main_withDebug W fl).
  destruct (main_cases W fl) as [(c & msg & Hstop)|(cfg & startTime & endTime & items & Hreach)].
  - rewrite (Hstop (debug fl)). simpl. exists [], msg. split; [done | apply Forall_nil_2].
  - rewrite (main_reaches_loop W fl cfg startTime endTime items (debug fl) Hreach).
    destruct (finish_parts (forDeployments W startTime endTime items
                (loopStart W (withDebug (debug fl) fl) cfg startTime endTime)))
      as (F1 & _ & _ & _ & _ & _ & F7 & _).
    rewrite F1, F7.
    destruct (forDeployments_log W startTime endTime items
                (loopStart W (withDebug (debug fl) fl) cfg startTime endTime))
      as (lines & Hlog & Hend).
    cbn zeta in Hend. rewrite Hlog. simpl.
    by destruct (forDeployments W startTime endTime items _).1.
Qed.

Lemma validate_firstEmpty (c : Config) :
  validate c = (fun name => name ++ " is required") <$> firstEmpty (requiredFields c).
Proof. unfold validate, requiredFields. simpl. by repeat case_decide. Qed.

(** X14: a configuration that is read and decoded but has an empty
    required field ends the run at once: [main] exits with 255 and the one
    line "Validation error: <field> is required" for the first empty field,
    before the window is parsed, the cluster is asked, the file is created
    or any query is sent. *)
Theorem main_rejects_invalid_config (W : World) (fl : Flags) (data : string)
    (cfg : Config) (field : string) :
  ReadFile W (configPath fl) = Ok data ->
  yaml_Unmarshal W data zeroConfig = Ok cfg ->
  firstEmpty (requiredFields cfg) = Some field ->
  main W (initialState fl)
  = (Exits 255,
     add_log (FATAL, "Validation error: " ++ field ++ " is required")
       (set_config cfg (initialState fl))).
Proof.
  intros Hread Hyaml Hfield.
  unfold main, bind, get, orFatal, ret, modify, klog_Fatal. simpl.
  rewrite Hread, Hyaml. simpl. by rewrite validate_firstEmpty, Hfield.
Qed.

Lemma main_rejects_invalid_config_witness :
  let r := main incompleteWorld
             (initialState (Example.exampleFlags "not a time" Example.t13)) in
  r.1 = Exits 255
  /\ log r.2 = [(FATAL, "Validation error: namespace is required")]
  /\ file r.2 = None.
Proof.
  cbv zeta.
  rewrite (main_rejects_invalid_config incompleteWorld
             (Example.exampleFlags "not a time" Example.t13)
             "namespace:" incompleteConfig "namespace" eq_refl eq_refl eq_refl).
  by split_and!.
Defined.

(** X15: every record [main] hands to the CSV writer has four fields, in
    every run: the report never has a short or a long row. *)
Theorem records_have_four_fields (W : World) (fl : Flags) :
  Forall (fun record => length record = 4%nat) (written (main W (initialState fl)).2).
Proof.
  rewrite (main_withDebug W fl).
  destruct (main_cases W fl) as [(c & msg & Hstop)|(cfg & startTime & endTime & items & Hreach)].
  - rewrite (Hstop (debug fl)). simpl. apply Forall_nil_2.
  - destruct (main_run W fl cfg startTime endTime items (debug fl) Hreach)
      as (_ & Hw & _).
    rewrite Hw. apply Forall_cons_2; [done|].
    apply Forall_forall. intros record Hin.
    apply list_elem_of_lookup in Hin as [i Hi].
    rewrite list_lookup_imap in Hi.
    destruct (take _ items !! i) as [d|]; [|done].
    injection Hi as <-. unfold rowFor. by destruct (answerMetrics _).
Qed.

(** ** The process from the command line *)

(** X9: every run goes one of three ways.  [flag.Parse] ends the process
    itself: nothing is logged, no file is created, no record is written and
    no query is sent.  Or [flag.Parse] returns and [main] stops before it
    creates the file: exit status 255, exactly one fatal line in the log,
    no record, no query.  Or the file is created under the output name and
    the first record written is the header. *)
Theorem run_stops_early_or_writes_header (W : World) (inv : Invocation) :
  let r := run W inv in
  (exists status fl,
     flag_Parse inv (defaultFlags inv) = FlagsRefused status fl
     /\ r.1 = Exits status /\ log r.2 = [] /\ file r.2 = None
     /\ written r.2 = [] /\ requests r.2 = [] /\ flushed r.2 = false)
  \/ (exists fl,
        flag_Parse inv (defaultFlags inv) = FlagsSet fl
        /\ r.1 = Exits 255 /\ file r.2 = None /\ written r.2 = []
        /\ requests r.2 = [] /\ flushed r.2 = false
        /\ exists msg, log r.2 = [(FATAL, msg)])
  \/ (exists fl cfg startTime endTime items,
        flag_Parse inv (defaultFlags inv) = FlagsSet fl
        /\ reachesLoop W fl cfg startTime endTime items
        /\ file r.2 = Some (outputName W (Namespace cfg) startTime endTime)
        /\ head (written r.2) = Some header).
Proof.
  intros r. subst r. unfold run.
  destruct (flag_Parse inv (defaultFlags inv)) as [fl|status fl] eqn:Hparse.
  - destruct (main_stops_early_or_writes_header W fl)
      as [(Ho & Hfile & Hw & Hr & Hfl & Hlog)
         |(cfg & startTime & endTime & items & Hreach & Hfile & Hhead)].
    + right. left. exists fl. by split_and!.
    + right. right. exists fl, cfg, startTime, endTime, items. by split_and!.
  - left. exists status, fl. by split_and!.
Qed.

(** X10: the writer is flushed exactly when the process returns from
    [main].  A process that ends otherwise ends inside [flag.Parse] with
    the status of the flag package, before anything is created or written,
    or it exits with status 255 not flushed.  On return there is one more
    record than queries (the header); on an exit with 255 after the file
    was created there are as many records as queries (the last query has
    no record). *)
Theorem run_flushes_iff_returns (W : World) (inv : Invocation) :
  let r := run W inv in
  (r.1 = Returns tt /\ flushed r.2 = true
   /\ length (written r.2) = S (length (requests r.2)))
  \/ (r.1 = Exits 255 /\ flushed r.2 = false
      /\ (exists fl, flag_Parse inv (defaultFlags inv) = FlagsSet fl)
      /\ (file r.2 = None \/ length (written r.2) = length (requests r.2)))
  \/ (exists status fl,
        flag_Parse inv (defaultFlags inv) = FlagsRefused status fl
        /\ r.1 = Exits status /\ flushed r.2 = false
        /\ file r.2 = None /\ written r.2 = [] /\ requests r.2 = []).
Proof.
  intros r. subst r. unfold run.
  destruct (flag_Parse inv (defaultFlags inv)) as [fl|status fl] eqn:Hparse.
  - destruct (main_flushes_iff_returns W fl) as [(Ho & Hfl & Hlen)|(Ho & Hfl & Hlen)].
    + left. by split_and!.
    + right. left. split_and!; try done. by exists fl.
  - right. right. exists status, fl. by split_and!.
Qed.

(** X13: a fatal line is logged exactly when the process exits from [main]
    after [flag.Parse] has returned: a run that returns has no fatal line
    in its log; a run that exits after [flag.Parse] has exactly one, the
    last line of the log; a run that [flag.Parse] ends has an empty log. *)
Theorem run_fatal_line_iff_exit (W : World) (inv : Invocation) :
  let r := run W inv in
  match flag_Parse inv (defaultFlags inv) with
  | FlagsRefused status _ => r.1 = Exits status /\ log r.2 = []
  | FlagsSet _ =>
    match r.1 with
    | Returns _ => noFatal (log r.2)
    | Exits _ => exists l msg, log r.2 = (l ++ [(FATAL, msg)])%list /\ noFatal l
    end
  end.
Proof.
  intros r. subst r. unfold run.
  destruct (flag_Parse inv (defaultFlags inv)) as [fl|status fl]; [|done].
  apply fatal_line_iff_exit.
Qed.
